(** * AI Token Wheel (frontend): a shallow embedding of the wheel geometry,
    the spinner, the session store, the API client and the two pages.

    JavaScript numbers are IEEE 754 binary64 values: they are modelled by
    Rocq's primitive floats, whose operations are the binary64 ones, so
    every evaluation below is the value a JavaScript engine computes.
    JavaScript strings are sequences of UTF-16 code units.  [Math.random()]
    is made an explicit argument, and the backend's answers are arguments
    of the handlers that await them. *)

From Stdlib Require Import List Bool Arith ZArith NArith Lia.
From Stdlib Require Import Ascii String.
From Stdlib Require Import QArith.
From Stdlib Require Import Floats.PrimFloat Floats.SpecFloat Floats.FloatOps Floats.FloatAxioms.
From Stdlib Require Import Uint63.
Import ListNotations.

Set Warnings "-inexact-float,-register-all".

(* ================================================================== *)
(** ** JavaScript values *)

Module Js.

(** A string is a list of UTF-16 code units. *)
Definition code_unit := N.
Definition js_string := list code_unit.

(** A string literal of the source (ASCII only). *)
Definition lit (s : string) : js_string :=
  List.map N_of_ascii (list_ascii_of_string s).

(** [s.length] *)
Definition str_length (s : js_string) : nat := List.length s.

(** [s.substring(start)] for a start index [0 <= start]: the code units
    from [start] on; a start beyond the end is clamped to the length. *)
Definition substring (s : js_string) (start : nat) : js_string :=
  List.skipn start s.

(** Truthiness of a string: only the empty string is falsy. *)
Definition truthy_string (s : js_string) : bool :=
  match s with [] => false | _ :: _ => true end.

(** Truthiness of a function value: every function object is truthy. *)
Definition truthy_function {A : Type} (f : unit -> A) : bool := true.

(** ECMAScript WhiteSpace and LineTerminator code points, the ones
    [String.prototype.trim] strips (all of them are single code units). *)
Definition is_white_space (c : code_unit) : bool :=
  ((9 <=? c) && (c <=? 13) || (c =? 32) || (c =? 160) || (c =? 5760)
   || (8192 <=? c) && (c <=? 8202) || (c =? 8232) || (c =? 8233)
   || (c =? 8239) || (c =? 8287) || (c =? 12288) || (c =? 65279))%N.

Fixpoint trimStart (s : js_string) : js_string :=
  match s with
  | [] => []
  | c :: rest => if is_white_space c then trimStart rest else s
  end.

Definition trimEnd (s : js_string) : js_string :=
  List.rev (trimStart (List.rev s)).

(** [s.trim()] *)
Definition trim (s : js_string) : js_string := trimEnd (trimStart s).

(** [`${x}`] for a value that is a string or [null]. *)
Definition template_of_nullable (x : option js_string) : js_string :=
  match x with Some s => s | None => lit "null" end.

(** What a [catch] clause receives: an [Error] instance with its message,
    or any other thrown value. *)
Inductive thrown : Type :=
| ErrorObject (message : js_string)
| OtherValue.

(** The outcome of an awaited promise. *)
Inductive settled (A : Type) : Type :=
| Fulfilled (value : A)
| Rejected (reason : thrown).
Arguments Fulfilled {A} value.
Arguments Rejected {A} reason.

(** [error instanceof Error ? error.message : fallback] *)
Definition message_or (e : thrown) (fallback : js_string) : js_string :=
  match e with ErrorObject m => m | OtherValue => fallback end.

(** The exact rational value of a finite binary64 number (0 for the
    infinities and NaN); used to state sums over the reals. *)
Definition exact_value (f : float) : Q :=
  match Prim2SF f with
  | S754_finite sign m e =>
      let v := if (0 <=? e)%Z
               then inject_Z (Z.pos m * 2 ^ e)
               else Qmake (Z.pos m) (Pos.pow 2 (Z.to_pos (- e))) in
      if sign then Qopp v else v
  | _ => 0%Q
  end.

End Js.

Import Js.

(** Values parsed from a response body, and the conversions the client
    applies to them. *)
Module Json.

Inductive json : Type :=
| JNull
| JBool (b : bool)
| JNumber (x : float)
| JString (s : js_string)
| JArray (items : list json)
| JObject (members : list (js_string * json)).

(** [a === b] on strings. *)
Definition string_eqb (a b : js_string) : bool :=
  if list_eq_dec N.eq_dec a b then true else false.

(** The member of an object literal as [JSON.parse] builds it: when a
    key is repeated, the last occurrence is the one kept. *)
Fixpoint member (key : js_string) (members : list (js_string * json))
  : option json :=
  match members with
  | [] => None
  | (k, v) :: rest =>
      match member key rest with
      | Some later => Some later
      | None => if string_eqb k key then Some v else None
      end
  end.

(** [v.key] for a parsed value [v] and a key that no prototype defines
    (as [message] and [detail]): the outer [None] is the TypeError of
    reading a property of [null], the inner one is [undefined]. *)
Definition field (v : json) (key : js_string) : option (option json) :=
  match v with
  | JNull => None
  | JObject members => Some (member key members)
  | _ => Some None
  end.

(** Truthiness of a parsed value or [undefined]. *)
Definition truthy (v : option json) : bool :=
  match v with
  | None => false
  | Some JNull => false
  | Some (JBool b) => b
  | Some (JNumber x) => negb (x =? 0)%float && (x =? x)%float
  | Some (JString s) => truthy_string s
  | Some (JArray _) => true
  | Some (JObject _) => true
  end.

(** [a || b] *)
Definition or_else (a b : option json) : option json :=
  if truthy a then a else b.

Section WithNumberToString.

Variable number_toString : float -> js_string.

(** [Array.prototype.join] with the separator [","] over pieces. *)
Fixpoint join_comma (pieces : list js_string) : js_string :=
  match pieces with
  | [] => []
  | [piece] => piece
  | piece :: rest => piece ++ lit "," ++ join_comma rest
  end.

(** All the pieces, unless one of them is missing. *)
Fixpoint all_pieces (pieces : list (option js_string)) : option (list js_string) :=
  match pieces with
  | [] => Some []
  | None :: _ => None
  | Some piece :: rest =>
      match all_pieces rest with
      | Some others => Some (piece :: others)
      | None => None
      end
  end.

(** [String(v)], the conversion [new Error(v)] applies to its message;
    [None] is the TypeError of a value that cannot be converted.  An
    array is its elements joined by commas, [null] elements giving the
    empty string.  An object is ["[object Object]"], unless it has a
    member [toString] of its own: that member, a parsed value, is not a
    function, and [valueOf] does not give a primitive either. *)
Fixpoint to_string (v : json) : option js_string :=
  match v with
  | JNull => Some (lit "null")
  | JBool true => Some (lit "true")
  | JBool false => Some (lit "false")
  | JNumber x => Some (number_toString x)
  | JString s => Some s
  | JArray items =>
      option_map join_comma
        (all_pieces
           (List.map (fun item => match item with
                                  | JNull => Some []
                                  | _ => to_string item
                                  end) items))
  | JObject members =>
      match member (lit "toString") members with
      | Some _ => None
      | None => Some (lit "[object Object]")
      end
  end.

End WithNumberToString.

End Json.

(** The records shared by the utilities, the components and the store.
    [token_id] and [token_count] hold integers; [probability] is a
    binary64 number. *)
Record TokenData : Type := mkTokenData {
  token_id : Z;
  token_text : js_string;
  probability : float;
  log_probability : option float
}.

Record OtherCategory : Type := mkOtherCategory {
  total_probability : float;
  token_count : Z;
  sample_tokens : list TokenData
}.

(* ================================================================== *)
(** ** lib/utils/wheel.ts *)

Module Wheel.

(** The source's field [probability] is [wprobability] here, apart from
    [TokenData]'s. *)
Record Wedge : Type := mkWedge {
  tokenId : option Z;            (* number | null *)
  tokenText : js_string;
  wprobability : float;
  startAngle : float;
  endAngle : float;
  isOther : bool
}.

(** The loop over the above-threshold tokens: [wedges] is pushed to,
    [currentAngle] advances by each token's angle size.  Returns the
    wedges pushed by the loop and the angle it ends at. *)
Fixpoint tokenWedges (tokens : list TokenData) (currentAngle : float)
  : list Wedge * float :=
  match tokens with
  | [] => ([], currentAngle)
  | token :: rest =>
      let angleSize := (probability token * 360)%float in
      let w := {| tokenId := Some (token_id token);
                  tokenText := token_text token;
                  wprobability := probability token;
                  startAngle := currentAngle;
                  endAngle := (currentAngle + angleSize)%float;
                  isOther := false |} in
      let (ws, final) := tokenWedges rest (currentAngle + angleSize)%float in
      (w :: ws, final)
  end.

(** The wedge pushed for the "Other" category. *)
Definition otherWedge (otherCategory : OtherCategory) (currentAngle : float)
  : Wedge :=
  let angleSize := (total_probability otherCategory * 360)%float in
  {| tokenId := None;
     tokenText := lit "Other";
     wprobability := total_probability otherCategory;
     startAngle := currentAngle;
     endAngle := (currentAngle + angleSize)%float;
     isOther := true |}.

(** [calculateWedges(tokens, otherCategory)].  The parameter is typed
    [OtherCategory], an object, so the truthiness test [otherCategory &&]
    of the source always passes; what decides is
    [otherCategory.total_probability > 0]. *)
Definition calculateWedges (tokens : list TokenData)
  (otherCategory : OtherCategory) : list Wedge :=
  let (wedges, currentAngle) := tokenWedges tokens (-90)%float in
  if (0 <? total_probability otherCategory)%float
  then wedges ++ [otherWedge otherCategory currentAngle]
  else wedges.

End Wheel.

(* ================================================================== *)
(** ** lib/utils/spinner.ts *)

Module Spinner.
Import Wheel.

(** The fields carry the prefix [sel_] to keep them apart from those of
    [TokenData] and [Wedge]. *)
Record SelectedToken : Type := mkSelectedToken {
  sel_token_id : option Z;           (* token_id?: number *)
  sel_token_text : option js_string; (* token_text?: string *)
  sel_probability : float;
  sel_isOther : bool;
  sel_wedge : option Wedge           (* wedge?: Wedge; wedges[i] may be undefined *)
}.

(** [tokens.map((t, i) => ({ ..., wedge: wedges[i] }))], with the index
    the callback receives counted from [i]. *)
Fixpoint tokenEntries (tokens : list TokenData) (wedges : list Wedge)
  (i : nat) : list SelectedToken :=
  match tokens with
  | [] => []
  | t :: rest =>
      {| sel_token_id := Some (token_id t);
         sel_token_text := Some (token_text t);
         sel_probability := probability t;
         sel_isOther := false;
         sel_wedge := nth_error wedges i |}
      :: tokenEntries rest wedges (S i)
  end.

(** The entry the array literal always ends with. *)
Definition otherEntry (tokens : list TokenData)
  (otherCategory : OtherCategory) (wedges : list Wedge) : SelectedToken :=
  {| sel_token_id := None;
     sel_token_text := None;
     sel_probability := total_probability otherCategory;
     sel_isOther := true;
     sel_wedge := nth_error wedges (List.length tokens) |}.

(** [allTokens]: the "weighted array". *)
Definition allTokens (tokens : list TokenData)
  (otherCategory : OtherCategory) (wedges : list Wedge)
  : list SelectedToken :=
  tokenEntries tokens wedges 0 ++ [otherEntry tokens otherCategory wedges].

(** The [for ... of] loop: [cumulative] grows by each entry's probability
    and the first entry with [random <= cumulative] is returned; [None]
    when the loop runs to its end. *)
Fixpoint walk (random cumulative : float) (entries : list SelectedToken)
  : option SelectedToken :=
  match entries with
  | [] => None
  | token :: rest =>
      let cumulative := (cumulative + sel_probability token)%float in
      if (random <=? cumulative)%float then Some token
      else walk random cumulative rest
  end.

(** [selectRandomToken(tokens, otherCategory, wedges)], with the value
    of [Math.random()] as the argument [random].  The result is [None]
    where JavaScript would return [undefined] (an index outside the
    array in the fallback). *)
Definition selectRandomToken (random : float) (tokens : list TokenData)
  (otherCategory : OtherCategory) (wedges : list Wedge)
  : option SelectedToken :=
  let all := allTokens tokens otherCategory wedges in
  match walk random 0%float all with
  | Some token => Some token
  | None => nth_error all (List.length all - 1)
  end.

(** [calculateSpinRotation(selectedWedge, spins)] *)
Definition calculateSpinRotation (selectedWedge : Wedge) (spins : float)
  : float :=
  let targetAngle :=
    ((startAngle selectedWedge + endAngle selectedWedge) / 2)%float in
  (spins * 360 + targetAngle)%float.

(** The value of [cumulative] right after the entry of index [i] has been
    added: the probabilities of entries [0..i], summed left to right from
    0 in binary64 arithmetic. *)
Definition cumulativeMass (entries : list SelectedToken) (i : nat) : float :=
  List.fold_left (fun c e => (c + sel_probability e)%float)
    (List.firstn (S i) entries) 0%float.

End Spinner.

(* ================================================================== *)
(** ** lib/stores/session.svelte.ts *)

Module Store.

(** [TokenHistoryItem], its fields with the prefix [h_]. *)
Record TokenHistoryItem : Type := mkTokenHistoryItem {
  h_token_id : Z;
  h_token_text : js_string;
  h_probability : float;
  h_category : js_string;
  h_selected_at : js_string;
  h_sampled_from_other : option bool
}.

Record SessionStore : Type := mkSessionStore {
  sessionId : option js_string;   (* string | null *)
  modelName : js_string;
  initialPrompt : js_string;
  currentText : js_string;
  tokenHistory : list TokenHistoryItem;
  aboveThresholdTokens : list TokenData;
  otherCategory : OtherCategory;
  isLoading : bool;
  error : option js_string;       (* string | null *)
  isSpinning : bool
}.

Definition emptyOther : OtherCategory :=
  {| total_probability := 0%float; token_count := 0%Z; sample_tokens := [] |}.

(** The field initialisers of the class. *)
Definition initial : SessionStore :=
  {| sessionId := None;
     modelName := lit "gpt2";
     initialPrompt := [];
     currentText := [];
     tokenHistory := [];
     aboveThresholdTokens := [];
     otherCategory := emptyOther;
     isLoading := false;
     error := None;
     isSpinning := false |}.

(** The derived fields.  Each is declared as [$derived(() => ...)]: the
    derived value is the arrow function, which a reader has to call (as
    the GeneratedText component does with its own [generatedText()]). *)
Definition hasSession (s : SessionStore) : unit -> bool :=
  fun _ => match sessionId s with Some _ => true | None => false end.

Definition canUndo (s : SessionStore) : unit -> bool :=
  fun _ => (0 <? List.length (tokenHistory s))%nat.

Definition generatedText (s : SessionStore) : unit -> js_string :=
  fun _ =>
    if negb (truthy_string (initialPrompt s)) then []
    else substring (currentText s) (str_length (initialPrompt s)).

Definition reset (s : SessionStore) : SessionStore := initial.

Definition setSession (s : SessionStore) (session_id model_name : js_string)
  : SessionStore :=
  {| sessionId := Some session_id;
     modelName := model_name;
     initialPrompt := initialPrompt s;
     currentText := currentText s;
     tokenHistory := tokenHistory s;
     aboveThresholdTokens := aboveThresholdTokens s;
     otherCategory := otherCategory s;
     isLoading := isLoading s;
     error := error s;
     isSpinning := isSpinning s |}.

Definition setPrompt (s : SessionStore) (prompt : js_string) : SessionStore :=
  {| sessionId := sessionId s;
     modelName := modelName s;
     initialPrompt := prompt;
     currentText := prompt;
     tokenHistory := [];
     aboveThresholdTokens := aboveThresholdTokens s;
     otherCategory := otherCategory s;
     isLoading := isLoading s;
     error := error s;
     isSpinning := isSpinning s |}.

(** The part of a next-token-probs response the store reads
    ([current_text], [above_threshold_tokens], [other_category]). *)
Record ProbData : Type := mkProbData {
  pd_current_text : js_string;
  pd_above_threshold_tokens : list TokenData;
  pd_other_category : OtherCategory
}.

Definition setTokenProbabilities (s : SessionStore) (data : ProbData)
  : SessionStore :=
  {| sessionId := sessionId s;
     modelName := modelName s;
     initialPrompt := initialPrompt s;
     currentText := pd_current_text data;
     tokenHistory := tokenHistory s;
     aboveThresholdTokens := pd_above_threshold_tokens data;
     otherCategory := pd_other_category data;
     isLoading := isLoading s;
     error := error s;
     isSpinning := isSpinning s |}.

(** The part of an append-token or undo response the store reads
    ([current_text], [token_history]). *)
Record TextData : Type := mkTextData {
  td_current_text : js_string;
  td_token_history : list TokenHistoryItem
}.

Definition appendToken (s : SessionStore) (data : TextData) : SessionStore :=
  {| sessionId := sessionId s;
     modelName := modelName s;
     initialPrompt := initialPrompt s;
     currentText := td_current_text data;
     tokenHistory := td_token_history data;
     aboveThresholdTokens := aboveThresholdTokens s;
     otherCategory := otherCategory s;
     isLoading := isLoading s;
     error := error s;
     isSpinning := isSpinning s |}.

Definition undoToken (s : SessionStore) (data : TextData) : SessionStore :=
  {| sessionId := sessionId s;
     modelName := modelName s;
     initialPrompt := initialPrompt s;
     currentText := td_current_text data;
     tokenHistory := td_token_history data;
     aboveThresholdTokens := aboveThresholdTokens s;
     otherCategory := otherCategory s;
     isLoading := isLoading s;
     error := error s;
     isSpinning := isSpinning s |}.

(** Assignments to the UI fields, as the pages make them. *)
Definition set_isLoading (s : SessionStore) (b : bool) : SessionStore :=
  {| sessionId := sessionId s; modelName := modelName s;
     initialPrompt := initialPrompt s; currentText := currentText s;
     tokenHistory := tokenHistory s;
     aboveThresholdTokens := aboveThresholdTokens s;
     otherCategory := otherCategory s;
     isLoading := b; error := error s; isSpinning := isSpinning s |}.

Definition set_error (s : SessionStore) (e : option js_string) : SessionStore :=
  {| sessionId := sessionId s; modelName := modelName s;
     initialPrompt := initialPrompt s; currentText := currentText s;
     tokenHistory := tokenHistory s;
     aboveThresholdTokens := aboveThresholdTokens s;
     otherCategory := otherCategory s;
     isLoading := isLoading s; error := e; isSpinning := isSpinning s |}.

Definition set_isSpinning (s : SessionStore) (b : bool) : SessionStore :=
  {| sessionId := sessionId s; modelName := modelName s;
     initialPrompt := initialPrompt s; currentText := currentText s;
     tokenHistory := tokenHistory s;
     aboveThresholdTokens := aboveThresholdTokens s;
     otherCategory := otherCategory s;
     isLoading := isLoading s; error := error s; isSpinning := b |}.

End Store.

(* ================================================================== *)
(** ** lib/api/client.ts *)

Module Client.

(** [TokenSelection]: the body of an append-token request, its three
    optional fields with the prefix [ts_]. *)
Record TokenSelection : Type := mkTokenSelection {
  ts_token_id : option Z;
  ts_token_text : option js_string;
  ts_category : option js_string
}.

(** The requests the client sends, each with the data put on the wire:
    the session id interpolated into the path, the query parameters of
    the [URLSearchParams] in insertion order, the JSON body. *)
Inductive request : Type :=
| PostSessions (model_name : js_string)
| PostSetPrompt (session : js_string) (prompt : js_string)
| GetNextTokenProbs (session : js_string) (params : list (js_string * js_string))
| PostAppendToken (session : js_string) (selection : TokenSelection)
| PostUndo (session : js_string).

Section WithNumberToString.

(** [Number.prototype.toString], a built-in of the engine. *)
Variable number_toString : float -> js_string.

(** A parameter with a default value takes it when the argument is
    omitted ([None]). *)
Definition default_arg (given : option float) (default : float) : float :=
  match given with Some x => x | None => default end.

Definition createSession (modelName : js_string) : request :=
  PostSessions modelName.

Definition setPrompt (sessionId prompt : js_string) : request :=
  PostSetPrompt sessionId prompt.

(** [getNextTokenProbs(sessionId, threshold = 0.01, temperature = 1.0)] *)
Definition getNextTokenProbs (sessionId : js_string)
  (threshold temperature : option float) : request :=
  let threshold := default_arg threshold 0.01%float in
  let temperature := default_arg temperature 1.0%float in
  GetNextTokenProbs sessionId
    [ (lit "threshold", number_toString threshold);
      (lit "temperature", number_toString temperature) ].

Definition appendToken (sessionId : js_string) (selection : TokenSelection)
  : request :=
  PostAppendToken sessionId selection.

Definition undoToken (sessionId : js_string) : request :=
  PostUndo sessionId.

End WithNumberToString.

End Client.

(** *** [handleResponse] *)

Module Http.
Import Json.

(** A [Response]: [json] is what [response.json()] settles to (a
    rejection when the body is not JSON). *)
Record Response : Type := mkResponse {
  ok : bool;
  status : Z;
  json : settled Json.json
}.

(** What [handleResponse] throws: an [APIError] (its [name] is always
    ['APIError']) or anything else. *)
Inductive failure : Type :=
| APIError (message : js_string) (statusCode : Z)
| Other (reason : thrown).

Inductive outcome : Type :=
| Returned (value : Json.json)
| Threw (f : failure).

Section WithEngine.

Variable number_toString : float -> js_string.

(** The messages of the TypeErrors an engine raises for a property read
    on [null] and for a value that cannot be converted to a string. *)
Variable null_read_message : js_string.
Variable conversion_message : js_string.

(** [error.message || error.detail || 'Request failed'], for an [error]
    that is not [null]. *)
Definition errorMessage (message detail : option Json.json) : Json.json :=
  match or_else (or_else message detail) (Some (JString (lit "Request failed"))) with
  | Some v => v
  | None => JString (lit "Request failed")
  end.

(** [handleResponse(response)] *)
Definition handleResponse (response : Response) : outcome :=
  if negb (ok response) then
    let error :=
      match json response with
      | Fulfilled v => v
      | Rejected _ => JObject [(lit "message", JString (lit "Unknown error"))]
      end in
    match field error (lit "message"), field error (lit "detail") with
    | Some message, Some detail =>
        match to_string number_toString (errorMessage message detail) with
        | Some text => Threw (APIError text (status response))
        | None => Threw (Other (ErrorObject conversion_message))
        end
    | _, _ => Threw (Other (ErrorObject null_read_message))
    end
  else
    match json response with
    | Fulfilled v => Returned v
    | Rejected reason => Threw (Other reason)
    end.

(** What [await] gives a caller of a client function: the thrown value,
    or the parsed value at the type [T] the client declares.  The cast
    is unchecked: [view] stands for the fields the caller goes on to
    read from a value that has fields, and [None] is the body [null],
    which has none.  An [APIError] is an [Error] with its message. *)
Definition settledValue {T : Type} (view : Json.json -> T) (response : Response)
  : settled (option T) :=
  match handleResponse response with
  | Returned JNull => Fulfilled None
  | Returned v => Fulfilled (Some (view v))
  | Threw (APIError message _) => Rejected (ErrorObject message)
  | Threw (Other reason) => Rejected reason
  end.

(** An awaited answer once the store method it is handed to has read
    it.  [setSession], [setTokenProbabilities], [appendToken] and
    [undoToken] each begin by reading a field of their argument: on
    [null] that read throws a TypeError before anything is assigned,
    inside the [try] block of the awaiting handler, which then goes to
    its [catch] clause as it does for a rejected request. *)
Definition readable {T : Type} (answer : settled (option T)) : settled T :=
  match answer with
  | Fulfilled (Some value) => Fulfilled value
  | Fulfilled None => Rejected (ErrorObject null_read_message)
  | Rejected reason => Rejected reason
  end.

(** The answer of a client function as the handler that awaits it and
    hands it to the store gets to use it. *)
Definition awaited {T : Type} (view : Json.json -> T) (response : Response)
  : settled T :=
  readable (settledValue view response).

End WithEngine.

End Http.

(* ================================================================== *)
(** ** lib/utils/colors.ts *)

Module Colors.

(** A [Record<number, string>]: the keys assigned so far with their
    values, the latest assignment first. *)
Definition colorRecord := list (Z * js_string).

(** [colorMap[key] = value] *)
Definition assign (key : Z) (value : js_string) (colorMap : colorRecord)
  : colorRecord :=
  (key, value) :: colorMap.

(** [colorMap[key]]: [None] is [undefined]. *)
Fixpoint lookup (key : Z) (colorMap : colorRecord) : option js_string :=
  match colorMap with
  | [] => None
  | (k, v) :: rest => if (k =? key)%Z then Some v else lookup key rest
  end.

(** An array index or length as a number. *)
Definition number_of_nat (n : nat) : float :=
  PrimFloat.of_uint63 (Uint63.of_Z (Z.of_nat n)).

Section WithEngine.

Variable number_toString : float -> js_string.

(** The remainder operator [%] on numbers. *)
Variable number_rem : float -> float -> float.

(** [`hsl(${hue}, ${saturation}%, ${lightness}%)`] *)
Definition hsl (hue saturation lightness : float) : js_string :=
  lit "hsl(" ++ number_toString hue ++ lit ", "
  ++ number_toString saturation ++ lit "%, "
  ++ number_toString lightness ++ lit "%)".

(** The color the callback of [forEach] assigns at [index]. *)
Definition colorAt (hueStep : float) (index : nat) : js_string :=
  let hue := number_rem (number_of_nat index * hueStep)%float 360%float in
  let saturation := 70%float in
  let lightness := 55%float in
  hsl hue saturation lightness.

(** [tokens.forEach((token, index) => ...)], from [index] on. *)
Fixpoint colorLoop (hueStep : float) (tokens : list TokenData) (index : nat)
  (colorMap : colorRecord) : colorRecord :=
  match tokens with
  | [] => colorMap
  | token :: rest =>
      colorLoop hueStep rest (S index)
        (assign (token_id token) (colorAt hueStep index) colorMap)
  end.

(** [generateTokenColors(tokens)] *)
Definition generateTokenColors (tokens : list TokenData) : colorRecord :=
  let colorMap : colorRecord := [] in
  if (List.length tokens =? 0)%nat then colorMap
  else
    let hueStep := (360 / number_of_nat (List.length tokens))%float in
    colorLoop hueStep tokens 0 colorMap.

End WithEngine.

(** [OTHER_COLOR] *)
Definition OTHER_COLOR : js_string := lit "#9ca3af".

End Colors.

(* ================================================================== *)
(** ** lib/components: PromptInput, GeneratedText, OtherCategoryList *)

Module PromptInput.

(** [handleSubmit()]: [onSubmit] is the callback prop, run on the state
    [w] of whatever it acts on. *)
Definition handleSubmit {W : Type} (prompt : js_string) (onSubmit : W -> W)
  (w : W) : W :=
  if (0 <? str_length (trim prompt))%nat then onSubmit w else w.

(** [isValid], and the Start button's [disabled={!isValid}]. *)
Definition isValid (prompt : js_string) : bool :=
  (0 <? str_length (trim prompt))%nat.

Definition startDisabled (prompt : js_string) : bool := negb (isValid prompt).

(** The fields of a [KeyboardEvent] the component reads. *)
Record KeyboardEvent : Type := mkKeyboardEvent {
  key : js_string;
  ctrlKey : bool;
  metaKey : bool
}.

(** [handleKeyDown(event)]: submit on Ctrl+Enter or Cmd+Enter. *)
Definition handleKeyDown {W : Type} (prompt : js_string) (onSubmit : W -> W)
  (event : KeyboardEvent) (w : W) : W :=
  if Json.string_eqb (key event) (lit "Enter") && (ctrlKey event || metaKey event)
  then handleSubmit prompt onSubmit w
  else w.

End PromptInput.

Module GeneratedText.

(** The component's [generatedText], read as [generatedText()]. *)
Definition generatedText (prompt currentText : js_string) : unit -> js_string :=
  fun _ =>
    if negb (truthy_string prompt) then []
    else substring currentText (str_length prompt).

End GeneratedText.

Module OtherCategoryList.

Definition hasOtherCategory (totalProbability : float) (tokenCount : Z) : bool :=
  (0 <? totalProbability)%float && (0 <? tokenCount)%Z.

End OtherCategoryList.

Module TokenWheel.
Import Wheel Client.

(** [handleWedgeClick(wedge)] of the wheel component: the selection
    handed to [onTokenSelect], or [None] when the click is ignored
    because the wheel is spinning.  The wedges it is bound to are those
    of [calculateWedges(tokens, otherCategory)]. *)
Definition handleWedgeClick (spinning : bool) (wedge : Wedge)
  : option TokenSelection :=
  if spinning then None
  else if isOther wedge
  then Some {| ts_token_id := None; ts_token_text := None;
               ts_category := Some (lit "other") |}
  else Some {| ts_token_id := tokenId wedge;
               ts_token_text := Some (tokenText wedge);
               ts_category := None |}.

End TokenWheel.

(* ================================================================== *)
(** ** routes: the home page and the wheel page *)

Module Pages.
Import Wheel Spinner Store Client.

(** What a handler does besides updating the store. *)
Inductive effect : Type :=
| Api (r : request)
| Goto (path : js_string).

Section WithNumberToString.

Variable number_toString : float -> js_string.

(** [sessionStore.sessionId!] interpolated into a request path. *)
Definition sid (s : SessionStore) : js_string :=
  template_of_nullable (sessionId s).

(** The [catch] and [finally] clauses shared by the handlers. *)
Definition failed (s : SessionStore) (e : thrown) (fallback : js_string)
  : SessionStore :=
  set_isLoading (set_error s (Some (message_or e fallback))) false.

(** The tail of the [try] blocks: refetch the probabilities with the
    default threshold and temperature and store them. *)
Definition refetch (s : SessionStore) (probs : settled ProbData)
  (fallback : js_string) : SessionStore * list effect :=
  let call := Api (getNextTokenProbs number_toString (sid s) None None) in
  match probs with
  | Fulfilled probData =>
      (set_isLoading (setTokenProbabilities s probData) false, [call])
  | Rejected e => (failed s e fallback, [call])
  end.

(** [handleTokenSelect(selection)]; [appended] and [probs] are what the
    two awaited requests settle to. *)
Definition handleTokenSelect (s : SessionStore) (selection : TokenSelection)
  (appended : settled TextData) (probs : settled ProbData)
  : SessionStore * list effect :=
  let s := set_error (set_isLoading s true) None in
  let call := Api (Client.appendToken (sid s) selection) in
  match appended with
  | Fulfilled data =>
      let (s', calls) :=
        refetch (Store.appendToken s data) probs (lit "Failed to select token") in
      (s', call :: calls)
  | Rejected e => (failed s e (lit "Failed to select token"), [call])
  end.

(** The selection [handleSpin] passes on for a selected entry. *)
Definition selectionOf (selectedToken : SelectedToken) : TokenSelection :=
  if sel_isOther selectedToken
  then {| ts_token_id := None; ts_token_text := None;
          ts_category := Some (lit "other") |}
  else {| ts_token_id := sel_token_id selectedToken;
          ts_token_text := sel_token_text selectedToken;
          ts_category := None |}.

Record spun : Type := mkSpun {
  spin_rotation : float;         (* [rotation] while the wheel turns *)
  spin_selection : TokenSelection;
  spin_store : SessionStore;     (* the store when the handler is done *)
  spin_effects : list effect;
  final_rotation : float
}.

(** [handleSpin()]: [rotation] is the page's rotation state, [random]
    the draw.  [None] stands for the TypeError of reading a field of
    [undefined]. *)
Definition handleSpin (s : SessionStore) (rotation random : float)
  (appended : settled TextData) (probs : settled ProbData) : option spun :=
  let s := set_error (set_isSpinning s true) None in
  let wedges := calculateWedges (aboveThresholdTokens s) (otherCategory s) in
  match selectRandomToken random (aboveThresholdTokens s) (otherCategory s) wedges with
  | None => None
  | Some selectedToken =>
      let rotation :=
        match sel_wedge selectedToken with
        | Some wedge => calculateSpinRotation wedge 3%float
        | None => rotation
        end in
      let s := set_isSpinning s false in
      let selection := selectionOf selectedToken in
      let (s', effects) := handleTokenSelect s selection appended probs in
      Some {| spin_rotation := rotation;
              spin_selection := selection;
              spin_store := s';
              spin_effects := effects;
              final_rotation := 0%float |}
  end.

(** [handleUndo()] *)
Definition handleUndo (s : SessionStore) (undone : settled TextData)
  (probs : settled ProbData) : SessionStore * list effect :=
  let s := set_error (set_isLoading s true) None in
  let call := Api (Client.undoToken (sid s)) in
  match undone with
  | Fulfilled data =>
      let (s', calls) :=
        refetch (Store.undoToken s data) probs (lit "Failed to undo") in
      (s', call :: calls)
  | Rejected e => (failed s e (lit "Failed to undo"), [call])
  end.

(** The undo button's
    [disabled={!sessionStore.canUndo || sessionStore.isLoading || sessionStore.isSpinning}]:
    [canUndo] is read, not called. *)
Definition undoDisabled (s : SessionStore) : bool :=
  negb (truthy_function (canUndo s)) || isLoading s || isSpinning s.

(** The part of a create-session response the store reads. *)
Record SessionData : Type := mkSessionData {
  sd_session_id : js_string;
  sd_model_name : js_string
}.

(** [handleStart()] of the home page. *)
Definition handleStart (selectedModel prompt : js_string)
  (created : settled SessionData) (prompted : settled unit)
  (probs : settled ProbData) (s : SessionStore) : SessionStore * list effect :=
  let s := set_error (set_isLoading s true) None in
  let fallback := lit "An error occurred" in
  let call1 := Api (Client.createSession selectedModel) in
  match created with
  | Rejected e => (failed s e fallback, [call1])
  | Fulfilled sessionData =>
      let s := setSession s (sd_session_id sessionData) (sd_model_name sessionData) in
      let call2 := Api (Client.setPrompt (sid s) prompt) in
      match prompted with
      | Rejected e => (failed s e fallback, [call1; call2])
      | Fulfilled _ =>
          let s := Store.setPrompt s prompt in
          let (s', calls) := refetch s probs fallback in
          let navigation :=
            match probs with
            | Fulfilled _ => [Goto (lit "/wheel")]
            | Rejected _ => []
            end in
          (s', call1 :: call2 :: calls ++ navigation)
      end
  end.

(** The home page's [<PromptInput bind:prompt onSubmit={handleStart} />]:
    a submit of the prompt input with the page's handler as callback. *)
Definition submit (selectedModel prompt : js_string)
  (created : settled SessionData) (prompted : settled unit)
  (probs : settled ProbData) (s : SessionStore) : SessionStore * list effect :=
  PromptInput.handleSubmit prompt
    (fun w => let (s', effects) :=
                handleStart selectedModel prompt created prompted probs (fst w) in
              (s', snd w ++ effects))
    (s, []).

(** The wheel page's effect
    [if (!sessionStore.hasSession) { void goto('/') }]: [hasSession] is
    read, not called. *)
Definition sessionGuard (s : SessionStore) : list effect :=
  if negb (truthy_function (hasSession s)) then [Goto (lit "/")] else [].

(** [handleNewPrompt()] *)
Definition handleNewPrompt (s : SessionStore) : SessionStore * list effect :=
  (reset s, [Goto (lit "/")]).

End WithNumberToString.

End Pages.

(** *** The handlers over the answers as awaited

    The handlers again, with each awaited answer that is handed to the
    store given as it is awaited: rejected, fulfilled with [null]
    ([None]) or fulfilled with a value that has fields. *)

Module Answers.
Import Store Client Pages.

Section WithEngine.

Variable number_toString : float -> js_string.

(** The message of the TypeError an engine raises for a property read
    on [null]. *)
Variable null_read_message : js_string.

(** A store method that begins by reading a field of its argument,
    called inside a [try] block: on [null] the read throws before any
    field of the store is assigned. *)
Definition callMethod {T : Type} (method : SessionStore -> T -> SessionStore)
  (s : SessionStore) (data : option T) : settled SessionStore :=
  match data with
  | Some value => Fulfilled (method s value)
  | None => Rejected (ErrorObject null_read_message)
  end.

(** The tail of the [try] blocks:
    [const probData = await getNextTokenProbs(sessionStore.sessionId!);
     sessionStore.setTokenProbabilities(probData);] *)
Definition refetch (s : SessionStore) (probs : settled (option ProbData))
  (fallback : js_string) : SessionStore * list effect :=
  let call := Api (getNextTokenProbs number_toString (sid s) None None) in
  match probs with
  | Rejected e => (failed s e fallback, [call])
  | Fulfilled probData =>
      match callMethod setTokenProbabilities s probData with
      | Fulfilled s' => (set_isLoading s' false, [call])
      | Rejected e => (failed s e fallback, [call])
      end
  end.

(** [handleTokenSelect(selection)] *)
Definition handleTokenSelect (s : SessionStore) (selection : TokenSelection)
  (appended : settled (option TextData)) (probs : settled (option ProbData))
  : SessionStore * list effect :=
  let s := set_error (set_isLoading s true) None in
  let fallback := lit "Failed to select token" in
  let call := Api (Client.appendToken (sid s) selection) in
  match appended with
  | Rejected e => (failed s e fallback, [call])
  | Fulfilled data =>
      match callMethod Store.appendToken s data with
      | Rejected e => (failed s e fallback, [call])
      | Fulfilled s =>
          let (s', calls) := refetch s probs fallback in
          (s', call :: calls)
      end
  end.

(** [handleUndo()] *)
Definition handleUndo (s : SessionStore) (undone : settled (option TextData))
  (probs : settled (option ProbData)) : SessionStore * list effect :=
  let s := set_error (set_isLoading s true) None in
  let fallback := lit "Failed to undo" in
  let call := Api (Client.undoToken (sid s)) in
  match undone with
  | Rejected e => (failed s e fallback, [call])
  | Fulfilled data =>
      match callMethod Store.undoToken s data with
      | Rejected e => (failed s e fallback, [call])
      | Fulfilled s =>
          let (s', calls) := refetch s probs fallback in
          (s', call :: calls)
      end
  end.

(** [handleStart()]: the answer to [setPrompt] is awaited and not read,
    so that only its being fulfilled or rejected matters. *)
Definition handleStart (selectedModel prompt : js_string)
  (created : settled (option SessionData)) (prompted : settled unit)
  (probs : settled (option ProbData)) (s : SessionStore)
  : SessionStore * list effect :=
  let s := set_error (set_isLoading s true) None in
  let fallback := lit "An error occurred" in
  let call1 := Api (Client.createSession selectedModel) in
  match created with
  | Rejected e => (failed s e fallback, [call1])
  | Fulfilled sessionData =>
      match callMethod
              (fun s data => setSession s (sd_session_id data) (sd_model_name data))
              s sessionData with
      | Rejected e => (failed s e fallback, [call1])
      | Fulfilled s =>
          let call2 := Api (Client.setPrompt (sid s) prompt) in
          match prompted with
          | Rejected e => (failed s e fallback, [call1; call2])
          | Fulfilled _ =>
              let s := Store.setPrompt s prompt in
              let call3 :=
                Api (getNextTokenProbs number_toString (sid s) None None) in
              match probs with
              | Rejected e => (failed s e fallback, [call1; call2; call3])
              | Fulfilled probData =>
                  match callMethod setTokenProbabilities s probData with
                  | Rejected e => (failed s e fallback, [call1; call2; call3])
                  | Fulfilled s =>
                      (set_isLoading s false,
                       [call1; call2; call3; Goto (lit "/wheel")])
                  end
              end
          end
      end
  end.

End WithEngine.

End Answers.

(* ================================================================== *)
(** ** Vocabulary of the statements *)

Module Vocabulary.
Import Wheel Spinner Store.
Local Open Scope float_scope.

(** A list of wedges laid end to end from the angle [a], each as wide
    as the source computes it. *)
Fixpoint chained (a : float) (ws : list Wedge) : Prop :=
  match ws with
  | [] => True
  | w :: rest =>
      startAngle w = a /\
      endAngle w = a + wprobability w * 360 /\
      chained (endAngle w) rest
  end.

(** The angle reached from [a] after wedges of the probabilities [ps],
    added one after the other as the loop adds them. *)
Definition sweep (a : float) (ps : list float) : float :=
  fold_left (fun angle p => angle + p * 360) ps a.

(** [cumulative] after the entry of index [i], for a loop entered with
    the value [c]. *)
Definition massFrom (c : float) (entries : list SelectedToken) (i : nat) : float :=
  fold_left (fun c e => c + sel_probability e) (firstn (S i) entries) c.

(** The request for backend sampling from the tail. *)
Definition otherSelection : Client.TokenSelection :=
  {| Client.ts_token_id := None; Client.ts_token_text := None;
     Client.ts_category := Some (lit "other") |}.

(** Whether an awaited request was fulfilled. *)
Definition fulfilled {A : Type} (p : settled A) : bool :=
  match p with Fulfilled _ => true | Rejected _ => false end.

(** Whether an awaited request was fulfilled with an answer other than
    [null]. *)
Definition usable {A : Type} (p : settled (option A)) : bool :=
  match p with Fulfilled (Some _) => true | _ => false end.

End Vocabulary.

Import Vocabulary.

(** ** Sample data *)

Module Samples.

Definition tok (id : Z) (text : string) (p : float) : TokenData :=
  {| token_id := id; token_text := lit text; probability := p;
     log_probability := None |}.

Definition other (p : float) (n : Z) : OtherCategory :=
  {| total_probability := p; token_count := n; sample_tokens := [] |}.

(** A session on the prompt "The cat" whose distribution has an empty
    tail. *)
Definition emptyTailStore (tokens : list TokenData) : Store.SessionStore :=
  Store.setTokenProbabilities
    (Store.setPrompt (Store.setSession Store.initial (lit "abc-123") (lit "gpt2"))
       (lit "The cat"))
    {| Store.pd_current_text := lit "The cat";
       Store.pd_above_threshold_tokens := tokens;
       Store.pd_other_category := Store.emptyOther |}.

End Samples.

(* ================================================================== *)
(** * Properties *)

(* ------------------------------------------------------------------ *)
(** ** The wheel's geometry *)

Section WheelGeometry.
Import Wheel.
Local Open Scope float_scope.

Lemma tokenWedges_length (tokens : list TokenData) (a : float) :
  List.length (fst (tokenWedges tokens a)) = List.length tokens.
Proof.
  revert a; induction tokens as [|t rest IH]; intros a; simpl; [reflexivity|].
  specialize (IH (a + probability t * 360)).
  destruct (tokenWedges rest (a + probability t * 360)); simpl in *.
  now rewrite IH.
Qed.

Lemma tokenWedges_not_other (tokens : list TokenData) (a : float) (w : Wedge) :
  In w (fst (tokenWedges tokens a)) -> isOther w = false.
Proof.
  revert a; induction tokens as [|t rest IH]; intros a; simpl; [tauto|].
  specialize (IH (a + probability t * 360)).
  destruct (tokenWedges rest (a + probability t * 360)) as [ws final]; simpl in *.
  intros [<-|Hin]; [reflexivity | auto].
Qed.

Lemma tokenWedges_probabilities (tokens : list TokenData) (a : float) :
  map wprobability (fst (tokenWedges tokens a)) = map probability tokens.
Proof.
  revert a; induction tokens as [|t rest IH]; intros a; simpl; [reflexivity|].
  specialize (IH (a + probability t * 360)).
  destruct (tokenWedges rest (a + probability t * 360)); simpl in *.
  now rewrite IH.
Qed.

Lemma tokenWedges_final (tokens : list TokenData) (a : float) :
  snd (tokenWedges tokens a) = sweep a (map probability tokens).
Proof.
  revert a; induction tokens as [|t rest IH]; intros a; simpl; [reflexivity|].
  specialize (IH (a + probability t * 360)).
  destruct (tokenWedges rest (a + probability t * 360)); simpl in *.
  exact IH.
Qed.

Lemma chained_app (a : float) (ws : list Wedge) (w : Wedge) :
  chained a ws ->
  startAngle w = sweep a (map wprobability ws) ->
  endAngle w = startAngle w + wprobability w * 360 ->
  chained a (ws ++ [w]).
Proof.
  revert a; induction ws as [|v rest IH]; intros a; simpl.
  - intros _ Hs He. rewrite <- Hs. auto.
  - intros (Hv & Hve & Hrest) Hs He. repeat split; auto.
    apply IH; auto. unfold sweep in *. simpl in Hs. rewrite Hve. exact Hs.
Qed.

Lemma tokenWedges_chained (tokens : list TokenData) (a : float) :
  chained a (fst (tokenWedges tokens a)).
Proof.
  revert a; induction tokens as [|t rest IH]; intros a; simpl; [exact I|].
  specialize (IH (a + probability t * 360)).
  destruct (tokenWedges rest (a + probability t * 360)); simpl in *.
  auto.
Qed.

Lemma calculateWedges_chained (tokens : list TokenData) (oc : OtherCategory) :
  chained (-90) (calculateWedges tokens oc).
Proof.
  unfold calculateWedges.
  pose proof (tokenWedges_chained tokens (-90)) as Hc.
  pose proof (tokenWedges_final tokens (-90)) as Hf.
  pose proof (tokenWedges_probabilities tokens (-90)) as Hp.
  destruct (tokenWedges tokens (-90)) as [ws final]; simpl in *.
  destruct (0 <? total_probability oc); [|exact Hc].
  apply chained_app; [exact Hc | | reflexivity].
  simpl. now rewrite Hp.
Qed.

Lemma chained_first (a : float) (ws : list Wedge) (w : Wedge) :
  chained a ws -> nth_error ws 0 = Some w -> startAngle w = a.
Proof.
  destruct ws as [|v rest]; simpl; [discriminate|].
  intros (Hv & _) [= <-]. exact Hv.
Qed.

Lemma chained_next (a : float) (ws : list Wedge) (i : nat) (w1 w2 : Wedge) :
  chained a ws ->
  nth_error ws i = Some w1 -> nth_error ws (S i) = Some w2 ->
  startAngle w2 = endAngle w1.
Proof.
  revert a i; induction ws as [|v rest IH]; intros a i Hc H1 H2.
  - destruct i; discriminate.
  - destruct Hc as (_ & _ & Hrest). destruct i as [|i].
    + injection H1 as <-. simpl in H2.
      now apply chained_first with (ws := rest).
    + simpl in H1, H2. now apply IH with (a := endAngle v) (i := i).
Qed.

Lemma chained_width (a : float) (ws : list Wedge) (w : Wedge) :
  chained a ws -> In w ws ->
  endAngle w = startAngle w + wprobability w * 360.
Proof.
  revert a; induction ws as [|v rest IH]; intros a Hc Hin; [destruct Hin|].
  destruct Hc as (Hs & He & Hrest). destruct Hin as [<-|Hin].
  - now rewrite Hs.
  - now apply IH with (a := endAngle v).
Qed.

Lemma chained_last (a : float) (ws : list Wedge) (w : Wedge) :
  chained a ws ->
  nth_error ws (List.length ws - 1) = Some w ->
  endAngle w = sweep a (map wprobability ws).
Proof.
  revert a; induction ws as [|v rest IH]; intros a Hc Hn; [discriminate|].
  destruct Hc as (Hs & He & Hrest). destruct rest as [|u rest'].
  - injection Hn as <-. simpl. exact He.
  - change (sweep a (map wprobability (v :: u :: rest')))
      with (sweep (a + wprobability v * 360) (map wprobability (u :: rest'))).
    rewrite <- He. apply IH; [exact Hrest|].
    simpl in Hn |- *. now rewrite Nat.sub_0_r in *.
Qed.

End WheelGeometry.

Section WheelClaims.
Import Wheel Samples.
Local Open Scope float_scope.

(** A mass that compares equal to zero (either signed zero) is not
    greater than zero. *)
Lemma zero_not_positive (x : float) :
  (x =? 0) = true -> (0 <? x) = false.
Proof.
  rewrite FloatAxioms.eqb_spec, FloatAxioms.ltb_spec.
  change (Prim2SF 0) with (S754_zero false).
  destruct (Prim2SF x) as [s|s| |s m e]; try reflexivity; try discriminate;
    destruct s; discriminate.
Qed.

Lemma calculateWedges_positive (tokens : list TokenData) (oc : OtherCategory) :
  (0 <? total_probability oc) = true ->
  calculateWedges tokens oc =
  fst (tokenWedges tokens (-90))
  ++ [otherWedge oc (sweep (-90) (map probability tokens))].
Proof.
  intros Hpos. unfold calculateWedges.
  pose proof (tokenWedges_final tokens (-90)) as Hf.
  destruct (tokenWedges tokens (-90)) as [ws final]; simpl in *.
  now rewrite Hpos, Hf.
Qed.

Lemma calculateWedges_not_positive (tokens : list TokenData) (oc : OtherCategory) :
  (0 <? total_probability oc) = false ->
  calculateWedges tokens oc = fst (tokenWedges tokens (-90)).
Proof.
  intros Hneg. unfold calculateWedges.
  destruct (tokenWedges tokens (-90)) as [ws final]; simpl.
  now rewrite Hneg.
Qed.

(** C4.  [calculateWedges] emits an "Other" wedge if and only if
    [other.total_probability > 0].  With no above-threshold token and a
    positive other mass the result is exactly one wedge, the Other one,
    starting at the top of the wheel; with an other mass of zero the
    result is the per-token wedges alone, one per token and none of them
    the Other wedge. *)
Theorem calculateWedges_other_iff (tokens : list TokenData) (oc : OtherCategory) :
  ((exists w, In w (calculateWedges tokens oc) /\ isOther w = true)
   <-> (0 <? total_probability oc) = true)
  /\ ((0 <? total_probability oc) = true ->
      calculateWedges [] oc = [otherWedge oc (-90)]
      /\ isOther (otherWedge oc (-90)) = true)
  /\ ((total_probability oc =? 0) = true ->
      calculateWedges tokens oc = fst (tokenWedges tokens (-90))
      /\ List.length (calculateWedges tokens oc) = List.length tokens
      /\ forall w, In w (calculateWedges tokens oc) -> isOther w = false).
Proof.
  split; [split|split].
  - intros (w & Hin & Hother).
    destruct (0 <? total_probability oc) eqn:Hpos; [reflexivity|].
    rewrite (calculateWedges_not_positive tokens oc Hpos) in Hin.
    apply tokenWedges_not_other in Hin. congruence.
  - intros Hpos. rewrite (calculateWedges_positive tokens oc Hpos).
    eexists; split; [apply in_or_app; right; left; reflexivity | reflexivity].
  - intros Hpos. rewrite (calculateWedges_positive [] oc Hpos).
    split; reflexivity.
  - intros Hzero. apply zero_not_positive in Hzero.
    rewrite (calculateWedges_not_positive tokens oc Hzero).
    split; [reflexivity|]. split; [apply tokenWedges_length|].
    intros w. apply tokenWedges_not_other.
Qed.

(** The degenerate wheel (no token above the threshold, all the mass in
    the tail) and a wheel without tail, through the theorem. *)
Lemma calculateWedges_other_iff_witness :
  (calculateWedges [] (other 1 50257) = [otherWedge (other 1 50257) (-90)]
   /\ isOther (otherWedge (other 1 50257) (-90)) = true)
  /\ (calculateWedges [tok 1 "a" 0.5; tok 2 "b" 0.5] (other 0 0)
      = fst (tokenWedges [tok 1 "a" 0.5; tok 2 "b" 0.5] (-90))
      /\ List.length (calculateWedges [tok 1 "a" 0.5; tok 2 "b" 0.5] (other 0 0)) = 2%nat
      /\ forall w, In w (calculateWedges [tok 1 "a" 0.5; tok 2 "b" 0.5] (other 0 0)) ->
                   isOther w = false).
Proof.
  split.
  - apply (calculateWedges_other_iff [] (other 1 50257)). reflexivity.
  - apply (calculateWedges_other_iff [tok 1 "a" 0.5; tok 2 "b" 0.5] (other 0 0)).
    reflexivity.
Defined.

(** The Other-category panel shows the tail only when the wheel has an
    Other wedge. *)
Lemma hasOtherCategory_wedge (tokens : list TokenData) (oc : OtherCategory) :
  OtherCategoryList.hasOtherCategory (total_probability oc) (token_count oc) = true ->
  exists w, In w (calculateWedges tokens oc) /\ isOther w = true.
Proof.
  unfold OtherCategoryList.hasOtherCategory. intros H.
  apply andb_true_iff in H as [Hpos _].
  rewrite (calculateWedges_positive tokens oc Hpos).
  eexists; split; [apply in_or_app; right; left; reflexivity | reflexivity].
Qed.

(** C9, as the code has it.  The wedges are contiguous: the first one
    starts at -90 degrees, each later one starts where its predecessor
    ends, and every wedge ends at its start plus its probability times
    360 (binary64 arithmetic); so the last wedge ends at the angle
    reached from -90 by adding the angle sizes one after the other, and
    the probabilities of the wedges are the tokens' followed by the other
    mass when that is positive. *)
Theorem calculateWedges_contiguous (tokens : list TokenData) (oc : OtherCategory) :
  (forall w, nth_error (calculateWedges tokens oc) 0 = Some w ->
             startAngle w = -90)
  /\ (forall i w1 w2,
        nth_error (calculateWedges tokens oc) i = Some w1 ->
        nth_error (calculateWedges tokens oc) (S i) = Some w2 ->
        startAngle w2 = endAngle w1)
  /\ (forall w, In w (calculateWedges tokens oc) ->
                endAngle w = startAngle w + wprobability w * 360)
  /\ (forall w,
        nth_error (calculateWedges tokens oc)
                  (List.length (calculateWedges tokens oc) - 1) = Some w ->
        endAngle w = sweep (-90) (map wprobability (calculateWedges tokens oc)))
  /\ map wprobability (calculateWedges tokens oc)
     = map probability tokens
       ++ (if 0 <? total_probability oc then [total_probability oc] else []).
Proof.
  pose proof (calculateWedges_chained tokens oc) as Hc.
  repeat split.
  - intros w. now apply chained_first.
  - intros i w1 w2. now apply chained_next with (a := -90).
  - intros w. now apply chained_width with (a := -90).
  - intros w. now apply chained_last.
  - destruct (0 <? total_probability oc) eqn:Hpos.
    + rewrite (calculateWedges_positive tokens oc Hpos), map_app.
      now rewrite tokenWedges_probabilities.
    + rewrite (calculateWedges_not_positive tokens oc Hpos), app_nil_r.
      apply tokenWedges_probabilities.
Qed.

(** A wheel whose probabilities are dyadic: no rounding occurs and the
    wedges end exactly at 270 degrees, a full turn from -90. *)
Lemma calculateWedges_contiguous_witness :
  map (fun w => (startAngle w, endAngle w))
      (calculateWedges [tok 1 "a" 0.5; tok 2 "b" 0.25] (other 0.25 50255))
  = [(-90, 90); (90, 180); (180, 270)]
  /\ (forall w, In w (calculateWedges [tok 1 "a" 0.5; tok 2 "b" 0.25] (other 0.25 50255)) ->
                endAngle w = startAngle w + wprobability w * 360).
Proof.
  split; [reflexivity|].
  apply (calculateWedges_contiguous [tok 1 "a" 0.5; tok 2 "b" 0.25] (other 0.25 50255)).
Defined.

(** C9 as stated fails on binary64 numbers.  The probabilities 0.74,
    0.17 and an other mass of 0.09 sum to 1, both as real numbers (the
    exact values of the three doubles) and in the left-to-right binary64
    sum, yet the last wedge ends at 269.99999999999994, short of the 270
    degrees that close the circle opened at -90. *)
Lemma calculateWedges_full_circle_counterexample :
  Qeq_bool (exact_value 0.74 + exact_value 0.17 + exact_value 0.09) 1 = true
  /\ (0 + 0.74 + 0.17 + 0.09 =? 1) = true
  /\ map (fun w => (startAngle w, endAngle w))
         (calculateWedges [tok 1 "a" 0.74; tok 2 "b" 0.17] (other 0.09 50255))
     = [(-90, 176.39999999999998);
        (176.39999999999998, 237.59999999999997);
        (237.59999999999997, 269.99999999999994)]
  /\ (269.99999999999994 =? 270) = false
  /\ (269.99999999999994 - (-90) =? 360) = false.
Proof. repeat split; vm_compute; reflexivity. Qed.

End WheelClaims.

(* ------------------------------------------------------------------ *)
(** ** The spinner's draw *)

Section SpinnerDraw.
Import Wheel Spinner Samples.
Local Open Scope float_scope.

Lemma massFrom_zero (entries : list SelectedToken) (i : nat) :
  massFrom 0 entries i = cumulativeMass entries i.
Proof. reflexivity. Qed.

Lemma massFrom_cons (c : float) (e : SelectedToken)
  (rest : list SelectedToken) (i : nat) :
  massFrom c (e :: rest) (S i) = massFrom (c + sel_probability e) rest i.
Proof. reflexivity. Qed.

Lemma walk_first (random : float) (entries : list SelectedToken) :
  forall (c : float) (i : nat) (e : SelectedToken),
    nth_error entries i = Some e ->
    (random <=? massFrom c entries i) = true ->
    (forall j, (j < i)%nat -> (random <=? massFrom c entries j) = false) ->
    walk random c entries = Some e.
Proof.
  induction entries as [|x rest IH]; intros c i e Hnth Hmeet Hbefore.
  - destruct i; discriminate.
  - destruct i as [|i]; simpl.
    + injection Hnth as <-. unfold massFrom in Hmeet. simpl in Hmeet.
      now rewrite Hmeet.
    + assert (H0 : (random <=? c + sel_probability x) = false).
      { apply (Hbefore 0%nat). lia. }
      rewrite H0. apply IH with (i := i).
      * exact Hnth.
      * now rewrite <- massFrom_cons.
      * intros j Hj. rewrite <- massFrom_cons. apply Hbefore. lia.
Qed.

Lemma walk_none (random : float) (entries : list SelectedToken) :
  forall c : float,
    (forall j, (j < List.length entries)%nat ->
               (random <=? massFrom c entries j) = false) ->
    walk random c entries = None.
Proof.
  induction entries as [|x rest IH]; intros c Hall; [reflexivity|].
  simpl.
  assert (H0 : (random <=? c + sel_probability x) = false).
  { apply (Hall 0%nat). simpl. lia. }
  rewrite H0. apply IH. intros j Hj.
  rewrite <- massFrom_cons. apply Hall. simpl. lia.
Qed.

(** What the loop returns is one of the entries. *)
Lemma walk_in (random : float) (entries : list SelectedToken) :
  forall (c : float) (e : SelectedToken),
    walk random c entries = Some e -> In e entries.
Proof.
  induction entries as [|x rest IH]; intros c e; simpl; [discriminate|].
  destruct (random <=? c + sel_probability x).
  - intros [= <-]. now left.
  - intros H. right. eapply IH, H.
Qed.

Lemma tokenEntries_length (tokens : list TokenData) (wedges : list Wedge) (i : nat) :
  List.length (tokenEntries tokens wedges i) = List.length tokens.
Proof.
  revert i; induction tokens as [|t rest IH]; intros i; simpl; [reflexivity|].
  now rewrite IH.
Qed.

Lemma tokenEntries_probabilities (tokens : list TokenData)
  (wedges : list Wedge) (i : nat) :
  map sel_probability (tokenEntries tokens wedges i) = map probability tokens.
Proof.
  revert i; induction tokens as [|t rest IH]; intros i; simpl; [reflexivity|].
  now rewrite IH.
Qed.

Lemma tokenEntries_not_other (tokens : list TokenData)
  (wedges : list Wedge) (i : nat) (e : SelectedToken) :
  In e (tokenEntries tokens wedges i) -> sel_isOther e = false.
Proof.
  revert i; induction tokens as [|t rest IH]; intros i; simpl; [tauto|].
  intros [<-|Hin]; [reflexivity | eauto].
Qed.

Lemma allTokens_length (tokens : list TokenData) (oc : OtherCategory)
  (wedges : list Wedge) :
  List.length (allTokens tokens oc wedges) = S (List.length tokens).
Proof.
  unfold allTokens. rewrite length_app, tokenEntries_length. simpl. lia.
Qed.

Lemma allTokens_last (tokens : list TokenData) (oc : OtherCategory)
  (wedges : list Wedge) :
  nth_error (allTokens tokens oc wedges)
            (List.length (allTokens tokens oc wedges) - 1)
  = Some (otherEntry tokens oc wedges).
Proof.
  rewrite allTokens_length. simpl. rewrite Nat.sub_0_r.
  unfold allTokens. rewrite nth_error_app2; rewrite tokenEntries_length; [|lia].
  now rewrite Nat.sub_diag.
Qed.

Lemma allTokens_probabilities (tokens : list TokenData) (oc : OtherCategory)
  (wedges : list Wedge) :
  map sel_probability (allTokens tokens oc wedges)
  = map probability tokens ++ [total_probability oc].
Proof.
  unfold allTokens. now rewrite map_app, tokenEntries_probabilities.
Qed.

End SpinnerDraw.

Section SpinnerClaims.
Import Wheel Spinner Samples.
Local Open Scope float_scope.

(** C1.  With the draw [random] made explicit, [selectRandomToken] walks
    the candidates in a fixed order (the tokens in the order given, then
    the Other entry), accumulating their probabilities from 0, and
    returns the first candidate whose cumulative mass meets or exceeds
    the draw: the candidate of index [i] whenever [random <= cumulative]
    holds at [i] and at no earlier index.  This holds for every draw, in
    particular for every draw in [0,1). *)
Theorem selectRandomToken_first_meeting (random : float)
  (tokens : list TokenData) (oc : OtherCategory) (wedges : list Wedge) :
  map sel_probability (allTokens tokens oc wedges)
  = map probability tokens ++ [total_probability oc]
  /\ forall (i : nat) (entry : SelectedToken),
       nth_error (allTokens tokens oc wedges) i = Some entry ->
       (random <=? cumulativeMass (allTokens tokens oc wedges) i) = true ->
       (forall j, (j < i)%nat ->
          (random <=? cumulativeMass (allTokens tokens oc wedges) j) = false) ->
       selectRandomToken random tokens oc wedges = Some entry.
Proof.
  split; [apply allTokens_probabilities|].
  intros i entry Hnth Hmeet Hbefore. unfold selectRandomToken.
  erewrite walk_first; [reflexivity | exact Hnth | | ].
  - now rewrite massFrom_zero.
  - intros j Hj. rewrite massFrom_zero. now apply Hbefore.
Qed.

(** Two tokens of mass 0.5 and 0.25 and a tail of 0.25: the draw 0.6 is
    first met at the second token (cumulative mass 0.75). *)
Lemma selectRandomToken_first_meeting_witness :
  selectRandomToken 0.6 [tok 1 "a" 0.5; tok 2 "b" 0.25] (other 0.25 50255)
    (calculateWedges [tok 1 "a" 0.5; tok 2 "b" 0.25] (other 0.25 50255))
  = Some {| sel_token_id := Some 2%Z;
            sel_token_text := Some (lit "b");
            sel_probability := 0.25;
            sel_isOther := false;
            sel_wedge := Some {| tokenId := Some 2%Z; tokenText := lit "b";
                                 wprobability := 0.25; startAngle := 90;
                                 endAngle := 180; isOther := false |} |}.
Proof.
  apply (proj2 (selectRandomToken_first_meeting 0.6
                  [tok 1 "a" 0.5; tok 2 "b" 0.25] (other 0.25 50255)
                  (calculateWedges [tok 1 "a" 0.5; tok 2 "b" 0.25] (other 0.25 50255))))
    with (i := 1%nat).
  - reflexivity.
  - reflexivity.
  - intros j Hj. assert (j = 0%nat) as -> by lia. reflexivity.
Defined.

(** C10.  [selectRandomToken] is total and falls back to the Other
    entry: the candidate list has one entry more than [tokens] (so it is
    never empty), its last entry is the Other entry, built from
    [otherCategory.total_probability] whatever that is; the function
    returns an entry for every input; and when the draw exceeds the
    cumulative mass at every candidate the result is that last, Other
    entry. *)
Theorem selectRandomToken_total_fallback (random : float)
  (tokens : list TokenData) (oc : OtherCategory) (wedges : list Wedge) :
  List.length (allTokens tokens oc wedges) = S (List.length tokens)
  /\ nth_error (allTokens tokens oc wedges)
               (List.length (allTokens tokens oc wedges) - 1)
     = Some (otherEntry tokens oc wedges)
  /\ sel_isOther (otherEntry tokens oc wedges) = true
  /\ sel_probability (otherEntry tokens oc wedges) = total_probability oc
  /\ (exists entry, selectRandomToken random tokens oc wedges = Some entry
                    /\ In entry (allTokens tokens oc wedges))
  /\ ((forall j, (j < List.length (allTokens tokens oc wedges))%nat ->
         (random <=? cumulativeMass (allTokens tokens oc wedges) j) = false) ->
      selectRandomToken random tokens oc wedges
      = Some (otherEntry tokens oc wedges)).
Proof.
  pose proof (allTokens_last tokens oc wedges) as Hlast.
  repeat split; try assumption.
  - apply allTokens_length.
  - unfold selectRandomToken.
    destruct (walk random 0 (allTokens tokens oc wedges)) as [e|] eqn:Hw.
    + exists e. split; [reflexivity | eapply walk_in, Hw].
    + exists (otherEntry tokens oc wedges). split; [exact Hlast|].
      eapply nth_error_In, Hlast.
  - intros Hnone. unfold selectRandomToken.
    rewrite walk_none; [exact Hlast|].
    intros j Hj. rewrite massFrom_zero. now apply Hnone.
Qed.

(** All the mass is above the threshold but the two probabilities sum to
    0.75 only, and the other mass is zero: the draw 0.875 is met by no
    candidate and the Other entry comes back, without a wedge, since the
    wheel has no Other wedge then. *)
Lemma selectRandomToken_total_fallback_witness :
  selectRandomToken 0.875 [tok 1 "a" 0.5; tok 2 "b" 0.25] (other 0 0)
    (calculateWedges [tok 1 "a" 0.5; tok 2 "b" 0.25] (other 0 0))
  = Some {| sel_token_id := None; sel_token_text := None;
            sel_probability := 0; sel_isOther := true; sel_wedge := None |}.
Proof.
  apply (selectRandomToken_total_fallback 0.875
           [tok 1 "a" 0.5; tok 2 "b" 0.25] (other 0 0)
           (calculateWedges [tok 1 "a" 0.5; tok 2 "b" 0.25] (other 0 0))).
  intros j Hj. simpl in Hj.
  destruct j as [|[|[|j]]]; [reflexivity | reflexivity | reflexivity | lia].
Defined.

End SpinnerClaims.

(* ------------------------------------------------------------------ *)
(** ** The session store *)

Section StoreClaims.
Import Store.

Lemma substring_prefix (prefix suffix : js_string) :
  substring (prefix ++ suffix) (str_length prefix) = suffix.
Proof.
  unfold substring, str_length.
  induction prefix as [|c rest IH]; simpl; [reflexivity | exact IH].
Qed.

Lemma truthy_nonempty (s : js_string) : s <> [] -> truthy_string s = true.
Proof. destruct s; [congruence | reflexivity]. Qed.

(** The store's derived text and the component's are the same function
    of the prompt and the current text. *)
Lemma generatedText_component (s : SessionStore) :
  generatedText s tt
  = GeneratedText.generatedText (initialPrompt s) (currentText s) tt.
Proof. reflexivity. Qed.

(** C2, as the code has it.  In a state with a non-empty initial prompt
    whose current text is the prompt followed by a suffix, the derived
    [generatedText] (the store's and the component's alike) is exactly
    that suffix, so the current text is the prompt followed by
    [generatedText]; with an empty initial prompt the derived value is
    the empty string. *)
Theorem generatedText_suffix (s : SessionStore) (suffix : js_string) :
  (initialPrompt s <> [] ->
   currentText s = initialPrompt s ++ suffix ->
   generatedText s tt = suffix
   /\ GeneratedText.generatedText (initialPrompt s) (currentText s) tt = suffix
   /\ currentText s = initialPrompt s ++ generatedText s tt)
  /\ (initialPrompt s = [] ->
      generatedText s tt = []
      /\ GeneratedText.generatedText (initialPrompt s) (currentText s) tt = []).
Proof.
  split.
  - intros Hprompt Htext.
    assert (Hgen : generatedText s tt = suffix).
    { unfold generatedText. rewrite (truthy_nonempty _ Hprompt). simpl.
      rewrite Htext. apply substring_prefix. }
    rewrite <- generatedText_component, Hgen. auto.
  - intros Hempty. rewrite <- generatedText_component.
    unfold generatedText. rewrite Hempty. auto.
Qed.

(** The prompt "The cat" with the token " sat" appended. *)
Lemma generatedText_suffix_witness :
  generatedText
    (appendToken (setPrompt initial (lit "The cat"))
       {| td_current_text := lit "The cat sat"; td_token_history := [] |}) tt
  = lit " sat".
Proof.
  apply (proj1 (generatedText_suffix
                  (appendToken (setPrompt initial (lit "The cat"))
                     {| td_current_text := lit "The cat sat";
                        td_token_history := [] |})
                  (lit " sat"))).
  - discriminate.
  - reflexivity.
Defined.

(** C2 as stated fails for an empty initial prompt: a store that has
    received a text without a prompt having been set (or the component
    rendered with its default [prompt = '']) has a current text that is
    the prompt followed by " cat", and a derived text that is empty. *)
Lemma generatedText_empty_prompt_counterexample :
  currentText
    (setTokenProbabilities initial
       {| pd_current_text := lit " cat"; pd_above_threshold_tokens := [];
          pd_other_category := emptyOther |})
  = initialPrompt
      (setTokenProbabilities initial
         {| pd_current_text := lit " cat"; pd_above_threshold_tokens := [];
            pd_other_category := emptyOther |})
    ++ lit " cat"
  /\ generatedText
       (setTokenProbabilities initial
          {| pd_current_text := lit " cat"; pd_above_threshold_tokens := [];
             pd_other_category := emptyOther |}) tt
     = []
  /\ GeneratedText.generatedText [] (lit " cat") tt = []
  /\ str_length (lit " cat") = 4%nat.
Proof. repeat split. Qed.

(** C3.  Whatever the store held before, [setPrompt(p)] sets
    [initialPrompt] to [p], [currentText] to exactly [p] and the token
    history to the empty sequence; nothing is left to undo, no text
    counts as generated, and the other fields keep their values. *)
Theorem setPrompt_resets (s : SessionStore) (p : js_string) :
  initialPrompt (setPrompt s p) = p
  /\ currentText (setPrompt s p) = p
  /\ tokenHistory (setPrompt s p) = []
  /\ canUndo (setPrompt s p) tt = false
  /\ generatedText (setPrompt s p) tt = []
  /\ sessionId (setPrompt s p) = sessionId s
  /\ modelName (setPrompt s p) = modelName s
  /\ aboveThresholdTokens (setPrompt s p) = aboveThresholdTokens s
  /\ otherCategory (setPrompt s p) = otherCategory s.
Proof.
  repeat split.
  unfold generatedText; simpl.
  destruct p as [|c rest]; [reflexivity|]. simpl.
  pose proof (substring_prefix rest []) as H.
  now rewrite app_nil_r in H.
Qed.

(** A second [setPrompt] on a session that already has a history. *)
Example setPrompt_twice :
  let h := {| h_token_id := 3797%Z; h_token_text := lit " sat";
              h_probability := 0.18%float; h_category := lit "above_threshold";
              h_selected_at := lit "2025-01-01T00:00:00Z";
              h_sampled_from_other := None |} in
  let s := appendToken (setPrompt initial (lit "The cat"))
             {| td_current_text := lit "The cat sat"; td_token_history := [h] |} in
  tokenHistory s = [h]
  /\ currentText (setPrompt s (lit "A dog")) = lit "A dog"
  /\ tokenHistory (setPrompt s (lit "A dog")) = [].
Proof. repeat split. Qed.

End StoreClaims.

(* ------------------------------------------------------------------ *)
(** ** Undo *)

Section UndoClaims.
Import Store Client Pages.

Variable number_toString : float -> js_string.

Lemma refetch_initialPrompt (s : SessionStore) (probs : settled ProbData)
  (fallback : js_string) :
  initialPrompt (fst (refetch number_toString s probs fallback))
  = initialPrompt s.
Proof. destruct probs; reflexivity. Qed.

Lemma handleUndo_initialPrompt (s : SessionStore) (undone : settled TextData)
  (probs : settled ProbData) :
  initialPrompt (fst (handleUndo number_toString s undone probs))
  = initialPrompt s.
Proof.
  unfold handleUndo. destruct undone as [data|e]; [|reflexivity].
  pose proof (refetch_initialPrompt
                (Store.undoToken (set_error (set_isLoading s true) None) data)
                probs (lit "Failed to undo")) as H.
  destruct (refetch number_toString _ probs _) as [s' calls]. exact H.
Qed.

(** The button reads [canUndo] without calling it, so the history has no
    part in [disabled]: an idle store has the control enabled, also when
    there is nothing to undo. *)
Lemma undoDisabled_ignores_history (s : SessionStore) :
  undoDisabled s = isLoading s || isSpinning s.
Proof. reflexivity. Qed.

Lemma undo_enabled_on_empty_history :
  canUndo initial tt = false /\ undoDisabled initial = false.
Proof. split; reflexivity. Qed.

Lemma canUndo_length (s : SessionStore) :
  canUndo s tt = true <-> (0 < List.length (tokenHistory s))%nat.
Proof. unfold canUndo. apply Nat.ltb_lt. Qed.

End UndoClaims.

(** C5, as the code has it.  [canUndo()] is true if and only if the
    token history is non-empty; the undo control is disabled whenever a
    request is loading or the wheel is spinning, whatever the history,
    and with a non-empty history it is enabled exactly when the store is
    neither loading nor spinning; an undo that the backend rejects (the
    CannotUndo condition among them) leaves the current text and the
    history as they were; and no undo, accepted or rejected, changes the
    initial prompt. *)
Theorem undo_control (number_toString : float -> js_string)
  (s : Store.SessionStore) :
  (Store.canUndo s tt = true <-> (0 < List.length (Store.tokenHistory s))%nat)
  /\ (Store.isLoading s = true \/ Store.isSpinning s = true ->
      Pages.undoDisabled s = true)
  /\ ((0 < List.length (Store.tokenHistory s))%nat ->
      (Pages.undoDisabled s = false
       <-> Store.isLoading s = false /\ Store.isSpinning s = false))
  /\ (forall e probs,
        Store.currentText (fst (Pages.handleUndo number_toString s (Rejected e) probs))
        = Store.currentText s
        /\ Store.tokenHistory (fst (Pages.handleUndo number_toString s (Rejected e) probs))
           = Store.tokenHistory s)
  /\ (forall undone probs,
        Store.initialPrompt (fst (Pages.handleUndo number_toString s undone probs))
        = Store.initialPrompt s)
  /\ (forall data, Store.initialPrompt (Store.undoToken s data)
                   = Store.initialPrompt s).
Proof.
  split; [apply canUndo_length|]. split; [|split; [|split; [|split]]].
  - rewrite undoDisabled_ignores_history. intros [-> | ->]; [reflexivity | apply orb_true_r].
  - intros _. rewrite undoDisabled_ignores_history.
    destruct (Store.isLoading s), (Store.isSpinning s); simpl; split;
      try discriminate; try reflexivity; try tauto;
      intros [H1 H2]; discriminate.
  - intros e probs. split; reflexivity.
  - intros undone probs. apply handleUndo_initialPrompt.
  - reflexivity.
Qed.

(** A store that is loading has the control disabled; an idle store
    with one token in its history has it enabled. *)
Lemma undo_control_witness :
  Pages.undoDisabled (Store.set_isLoading Store.initial true) = true
  /\ Pages.undoDisabled
       (Store.appendToken (Store.setPrompt Store.initial (lit "The cat"))
          {| Store.td_current_text := lit "The cat sat";
             Store.td_token_history :=
               [ {| Store.h_token_id := 3797%Z; Store.h_token_text := lit " sat";
                    Store.h_probability := 0.18%float;
                    Store.h_category := lit "above_threshold";
                    Store.h_selected_at := lit "2025-01-01T00:00:00Z";
                    Store.h_sampled_from_other := None |} ] |})
     = false.
Proof.
  split.
  - apply (undo_control (fun _ => []) (Store.set_isLoading Store.initial true)).
    left. reflexivity.
  - apply (proj1 (proj2 (proj2 (undo_control (fun _ => [])
             (Store.appendToken (Store.setPrompt Store.initial (lit "The cat"))
                {| Store.td_current_text := lit "The cat sat";
                   Store.td_token_history :=
                     [ {| Store.h_token_id := 3797%Z; Store.h_token_text := lit " sat";
                          Store.h_probability := 0.18%float;
                          Store.h_category := lit "above_threshold";
                          Store.h_selected_at := lit "2025-01-01T00:00:00Z";
                          Store.h_sampled_from_other := None |} ] |}))))).
    + simpl. lia.
    + split; reflexivity.
Defined.

(** C5 as stated fails: with one token in the history and a request in
    flight, [canUndo()] is true and the undo control is disabled. *)
Lemma undo_disabled_while_loading_counterexample :
  Store.canUndo
    (Store.set_isLoading
       (Store.appendToken (Store.setPrompt Store.initial (lit "The cat"))
          {| Store.td_current_text := lit "The cat sat";
             Store.td_token_history :=
               [ {| Store.h_token_id := 3797%Z; Store.h_token_text := lit " sat";
                    Store.h_probability := 0.18%float;
                    Store.h_category := lit "above_threshold";
                    Store.h_selected_at := lit "2025-01-01T00:00:00Z";
                    Store.h_sampled_from_other := None |} ] |})
       true) tt = true
  /\ Pages.undoDisabled
       (Store.set_isLoading
          (Store.appendToken (Store.setPrompt Store.initial (lit "The cat"))
             {| Store.td_current_text := lit "The cat sat";
                Store.td_token_history :=
                  [ {| Store.h_token_id := 3797%Z; Store.h_token_text := lit " sat";
                       Store.h_probability := 0.18%float;
                       Store.h_category := lit "above_threshold";
                       Store.h_selected_at := lit "2025-01-01T00:00:00Z";
                       Store.h_sampled_from_other := None |} ] |})
          true) = true.
Proof. split; reflexivity. Qed.

(* ------------------------------------------------------------------ *)
(** ** Spinning with an empty tail *)

Section EmptyTail.
Import Wheel Spinner Store Client Pages Samples.
Local Open Scope float_scope.

Variable number_toString : float -> js_string.

Lemma selectRandomToken_fallback (random : float) (tokens : list TokenData)
  (oc : OtherCategory) (wedges : list Wedge) :
  (forall j, (j < List.length (allTokens tokens oc wedges))%nat ->
     (random <=? cumulativeMass (allTokens tokens oc wedges) j) = false) ->
  selectRandomToken random tokens oc wedges = Some (otherEntry tokens oc wedges).
Proof.
  intros Hnone. unfold selectRandomToken.
  rewrite walk_none; [apply allTokens_last|].
  intros j Hj. rewrite massFrom_zero. now apply Hnone.
Qed.

Lemma handleTokenSelect_first_effect (s : SessionStore) (selection : TokenSelection)
  (appended : settled TextData) (probs : settled ProbData) :
  hd_error (snd (handleTokenSelect number_toString s selection appended probs))
  = Some (Api (PostAppendToken (sid s) selection)).
Proof.
  unfold handleTokenSelect. destruct appended as [data|e]; [|reflexivity].
  destruct (refetch number_toString _ probs _) as [s' calls]. reflexivity.
Qed.

(** Whatever the other mass is, zero included: a draw that no cumulative
    mass meets makes [handleSpin] ask the backend to sample from the
    tail. *)
Lemma handleSpin_issues_other (s : SessionStore) (rotation random : float)
  (appended : settled TextData) (probs : settled ProbData) :
  (forall j,
     (j < List.length (allTokens (aboveThresholdTokens s) (otherCategory s)
                         (calculateWedges (aboveThresholdTokens s) (otherCategory s))))%nat ->
     (random <=? cumulativeMass
                   (allTokens (aboveThresholdTokens s) (otherCategory s)
                      (calculateWedges (aboveThresholdTokens s) (otherCategory s))) j)
     = false) ->
  exists r,
    handleSpin number_toString s rotation random appended probs = Some r
    /\ spin_selection r = otherSelection
    /\ hd_error (spin_effects r) = Some (Api (PostAppendToken (sid s) otherSelection)).
Proof.
  intros Hnone. unfold handleSpin.
  change (aboveThresholdTokens (set_error (set_isSpinning s true) None))
    with (aboveThresholdTokens s).
  change (otherCategory (set_error (set_isSpinning s true) None))
    with (otherCategory s).
  rewrite (selectRandomToken_fallback _ _ _ _ Hnone).
  pose proof (handleTokenSelect_first_effect
                (set_isSpinning (set_error (set_isSpinning s true) None) false)
                (selectionOf (otherEntry (aboveThresholdTokens s) (otherCategory s)
                   (calculateWedges (aboveThresholdTokens s) (otherCategory s))))
                appended probs) as Hhd.
  destruct (handleTokenSelect number_toString _ _ appended probs) as [s' effects].
  eexists; split; [reflexivity|]. split; [reflexivity | exact Hhd].
Qed.

(** The other way to select, a click on a wedge, never asks for tail
    sampling when the tail is empty: [calculateWedges] has no Other wedge
    to click then. *)
Lemma click_never_other_on_empty_tail (tokens : list TokenData)
  (oc : OtherCategory) (spinning : bool) (w : Wedge) (sel : TokenSelection) :
  (total_probability oc =? 0) = true ->
  In w (calculateWedges tokens oc) ->
  TokenWheel.handleWedgeClick spinning w = Some sel ->
  ts_category sel = None.
Proof.
  intros Hzero Hin. apply zero_not_positive in Hzero.
  rewrite (calculateWedges_not_positive tokens oc Hzero) in Hin.
  apply tokenWedges_not_other in Hin.
  unfold TokenWheel.handleWedgeClick. rewrite Hin.
  destruct spinning; [discriminate|]. now intros [= <-].
Qed.

End EmptyTail.

(** C6 fails on the code.  With [other.total_probability = 0] the spin
    flow still issues a [{ category: "other" }] selection request when
    the draw exceeds the accumulated mass: for two tokens of mass 0.5
    and 0.25 and the draw 0.875; for single-precision probabilities that
    sum to just under 1 (0.699999988079071 + 0.20000000298023224 +
    0.10000000149011612 = 0.9999999925494194) and the draw 0.9999999999;
    and for the store as it is before any distribution has arrived, with
    any draw above zero. *)
Theorem handleSpin_other_on_empty_tail (number_toString : float -> js_string)
  (rotation : float) (appended : settled Store.TextData)
  (probs : settled Store.ProbData) :
  (exists r,
     Pages.handleSpin number_toString
       (Samples.emptyTailStore [Samples.tok 1 " sat" 0.5; Samples.tok 2 " is" 0.25])
       rotation 0.875%float appended probs = Some r
     /\ Pages.spin_selection r = otherSelection
     /\ hd_error (Pages.spin_effects r)
        = Some (Pages.Api (Client.PostAppendToken (lit "abc-123") otherSelection)))
  /\ (exists r,
        Pages.handleSpin number_toString
          (Samples.emptyTailStore [Samples.tok 1 " sat" 0.699999988079071;
                           Samples.tok 2 " is" 0.20000000298023224;
                           Samples.tok 3 " was" 0.10000000149011612])
          rotation 0.9999999999%float appended probs = Some r
        /\ Pages.spin_selection r = otherSelection
        /\ hd_error (Pages.spin_effects r)
           = Some (Pages.Api (Client.PostAppendToken (lit "abc-123") otherSelection)))
  /\ (exists r,
        Pages.handleSpin number_toString Store.initial
          rotation 0.5%float appended probs = Some r
        /\ Pages.spin_selection r = otherSelection
        /\ hd_error (Pages.spin_effects r)
           = Some (Pages.Api (Client.PostAppendToken (lit "null") otherSelection))).
Proof.
  split; [|split].
  - apply handleSpin_issues_other. intros j Hj. simpl in Hj.
    destruct j as [|[|[|j]]]; [reflexivity | reflexivity | reflexivity | lia].
  - apply handleSpin_issues_other. intros j Hj. simpl in Hj.
    destruct j as [|[|[|[|j]]]];
      [reflexivity | reflexivity | reflexivity | reflexivity | lia].
  - apply handleSpin_issues_other. intros j Hj. simpl in Hj.
    destruct j as [|j]; [reflexivity | lia].
Qed.

(* ------------------------------------------------------------------ *)
(** ** Submitting a prompt *)

Section Submit.
Import Store Client Pages.

Lemma trimStart_blank (s : js_string) :
  forallb is_white_space s = true -> trimStart s = [].
Proof.
  induction s as [|c rest IH]; simpl; [reflexivity|].
  intros H. apply andb_true_iff in H as [Hc Hrest]. rewrite Hc. auto.
Qed.

(** A prompt made of white space only (the empty prompt among them)
    trims to the empty string. *)
Lemma trim_blank (s : js_string) :
  forallb is_white_space s = true -> str_length (trim s) = 0%nat.
Proof.
  intros H. unfold trim. now rewrite (trimStart_blank s H).
Qed.

(** A prompt that starts and ends with other characters is kept whole. *)
Lemma trimStart_keeps (c : code_unit) (rest : js_string) :
  is_white_space c = false -> trimStart (c :: rest) = c :: rest.
Proof. intros H. simpl. now rewrite H. Qed.

End Submit.

(** C7.  For every prompt whose trimmed length is zero, [handleSubmit]
    does not invoke [onSubmit]: whatever the callback and the state it
    acts on, the state is left as it was, and a callback that counts its
    invocations stays at zero; the Start button is disabled; and on the
    home page, where the callback is [handleStart], the store is left
    untouched and no request is sent. *)
Theorem handleSubmit_rejects_blank (prompt : js_string) :
  str_length (trim prompt) = 0%nat ->
  (forall (W : Type) (onSubmit : W -> W) (w : W),
     PromptInput.handleSubmit prompt onSubmit w = w)
  /\ PromptInput.handleSubmit prompt S 0%nat = 0%nat
  /\ PromptInput.startDisabled prompt = true
  /\ (forall number_toString selectedModel created prompted probs s,
        Pages.submit number_toString selectedModel prompt created prompted probs s
        = (s, [])).
Proof.
  intros Hblank.
  assert (Hall : forall (W : Type) (onSubmit : W -> W) (w : W),
             PromptInput.handleSubmit prompt onSubmit w = w).
  { intros W onSubmit w. unfold PromptInput.handleSubmit. now rewrite Hblank. }
  repeat split.
  - exact Hall.
  - apply Hall.
  - unfold PromptInput.startDisabled, PromptInput.isValid. now rewrite Hblank.
  - intros. unfold Pages.submit. apply Hall.
Qed.

(** The prompt made of a space, a tab and a line feed. *)
Lemma handleSubmit_rejects_blank_witness :
  PromptInput.handleSubmit [32%N; 9%N; 10%N] S 0%nat = 0%nat
  /\ PromptInput.startDisabled [32%N; 9%N; 10%N] = true.
Proof.
  split; apply (handleSubmit_rejects_blank [32%N; 9%N; 10%N]); reflexivity.
Defined.

(** For contrast: a prompt with text in it does reach the callback, and
    the home page then starts with the create-session request. *)
Example handleSubmit_accepts_text :
  PromptInput.handleSubmit (lit " The cat ") S 0%nat = 1%nat
  /\ forall number_toString e,
       snd (Pages.submit number_toString (lit "gpt2") (lit "The cat")
              (Rejected e) (Fulfilled tt) (Rejected e) Store.initial)
       = [Pages.Api (Client.PostSessions (lit "gpt2"))].
Proof. split; [reflexivity | intros; reflexivity]. Qed.

(* ------------------------------------------------------------------ *)
(** ** The probability request *)

Section Defaults.
Import Store Client Pages.

Variable number_toString : float -> js_string.

Lemma refetch_request (s : SessionStore) (probs : settled ProbData)
  (fallback : js_string) :
  snd (refetch number_toString s probs fallback)
  = [Api (GetNextTokenProbs (sid s)
            [ (lit "threshold", number_toString 0.01%float);
              (lit "temperature", number_toString 1.0%float) ])].
Proof. destruct probs; reflexivity. Qed.

End Defaults.

(** C8.  Called without threshold and temperature, [getNextTokenProbs]
    sends exactly the parameters threshold = 0.01 and temperature = 1.0
    (each as the engine prints the number), the same request as when
    these two values are passed explicitly; a value the caller does pass
    is sent as given.  The pages always call it that way: after a
    selection and after an undo the request carries the defaults. *)
Theorem getNextTokenProbs_defaults (number_toString : float -> js_string)
  (sessionId : js_string) :
  Client.getNextTokenProbs number_toString sessionId None None
  = Client.GetNextTokenProbs sessionId
      [ (lit "threshold", number_toString 0.01%float);
        (lit "temperature", number_toString 1.0%float) ]
  /\ Client.getNextTokenProbs number_toString sessionId None None
     = Client.getNextTokenProbs number_toString sessionId
         (Some 0.01%float) (Some 1.0%float)
  /\ (forall threshold temperature,
        Client.getNextTokenProbs number_toString sessionId
          (Some threshold) (Some temperature)
        = Client.GetNextTokenProbs sessionId
            [ (lit "threshold", number_toString threshold);
              (lit "temperature", number_toString temperature) ])
  /\ (forall s selection data probs,
        snd (Pages.handleTokenSelect number_toString s selection (Fulfilled data) probs)
        = [ Pages.Api (Client.PostAppendToken (Pages.sid s) selection);
            Pages.Api (Client.getNextTokenProbs number_toString (Pages.sid s) None None) ])
  /\ (forall s data probs,
        snd (Pages.handleUndo number_toString s (Fulfilled data) probs)
        = [ Pages.Api (Client.PostUndo (Pages.sid s));
            Pages.Api (Client.getNextTokenProbs number_toString (Pages.sid s) None None) ]).
Proof.
  repeat split.
  - intros s selection data probs. unfold Pages.handleTokenSelect.
    pose proof (refetch_request number_toString
                  (Store.appendToken
                     (Store.set_error (Store.set_isLoading s true) None) data)
                  probs (lit "Failed to select token")) as H.
    destruct (Pages.refetch number_toString _ probs _) as [s' calls].
    simpl in H |- *. now rewrite H.
  - intros s data probs. unfold Pages.handleUndo.
    pose proof (refetch_request number_toString
                  (Store.undoToken
                     (Store.set_error (Store.set_isLoading s true) None) data)
                  probs (lit "Failed to undo")) as H.
    destruct (Pages.refetch number_toString _ probs _) as [s' calls].
    simpl in H |- *. now rewrite H.
Qed.

(* ================================================================== *)
(** * Further properties *)

(* ------------------------------------------------------------------ *)
(** ** The wedges and the draw together *)

Section WedgesAndDraw.
Import Wheel Spinner Samples.
Local Open Scope float_scope.

Lemma tokenWedges_nth (tokens : list TokenData) :
  forall (a : float) (i : nat) (t : TokenData),
    nth_error tokens i = Some t ->
    exists w,
      nth_error (fst (tokenWedges tokens a)) i = Some w
      /\ tokenId w = Some (token_id t)
      /\ tokenText w = token_text t
      /\ wprobability w = probability t
      /\ isOther w = false.
Proof.
  induction tokens as [|x rest IH]; intros a i t Hnth.
  - destruct i; discriminate.
  - simpl. specialize (IH (a + probability x * 360)).
    destruct (tokenWedges rest (a + probability x * 360)) as [ws final].
    destruct i as [|i]; simpl in *.
    + injection Hnth as <-. eexists; repeat split; reflexivity.
    + apply IH, Hnth.
Qed.

Lemma calculateWedges_length (tokens : list TokenData) (oc : OtherCategory) :
  List.length (calculateWedges tokens oc)
  = (List.length tokens
     + if (0 <? total_probability oc)%float then 1%nat else 0%nat)%nat.
Proof.
  pose proof (tokenWedges_length tokens (-90)) as Hlen.
  destruct (0 <? total_probability oc) eqn:Hpos.
  - rewrite (calculateWedges_positive tokens oc Hpos), length_app, Hlen.
    reflexivity.
  - rewrite (calculateWedges_not_positive tokens oc Hpos), Hlen. lia.
Qed.

Lemma calculateWedges_token_wedge (tokens : list TokenData) (oc : OtherCategory)
  (i : nat) (t : TokenData) :
  nth_error tokens i = Some t ->
  exists w,
    nth_error (calculateWedges tokens oc) i = Some w
    /\ tokenId w = Some (token_id t)
    /\ tokenText w = token_text t
    /\ wprobability w = probability t
    /\ isOther w = false.
Proof.
  intros Hnth.
  destruct (tokenWedges_nth tokens (-90) i t Hnth) as (w & Hw & Hrest).
  exists w. split; [|exact Hrest].
  destruct (0 <? total_probability oc) eqn:Hpos.
  - rewrite (calculateWedges_positive tokens oc Hpos).
    rewrite nth_error_app1; [exact Hw|].
    apply nth_error_Some. congruence.
  - now rewrite (calculateWedges_not_positive tokens oc Hpos).
Qed.

Lemma calculateWedges_other_slot (tokens : list TokenData) (oc : OtherCategory) :
  nth_error (calculateWedges tokens oc) (List.length tokens)
  = if 0 <? total_probability oc
    then Some (otherWedge oc (sweep (-90) (map probability tokens)))
    else None.
Proof.
  pose proof (tokenWedges_length tokens (-90)) as Hlen.
  destruct (0 <? total_probability oc) eqn:Hpos.
  - rewrite (calculateWedges_positive tokens oc Hpos).
    rewrite nth_error_app2; rewrite Hlen; [|lia].
    now rewrite Nat.sub_diag.
  - rewrite (calculateWedges_not_positive tokens oc Hpos).
    apply nth_error_None. rewrite Hlen. lia.
Qed.

(** X1.  One wedge per token, in the order of the tokens and carrying the
    token's id, text and probability, followed by the Other wedge when
    the other mass is positive and by nothing otherwise. *)
Theorem calculateWedges_wedge_per_token (tokens : list TokenData)
  (oc : OtherCategory) :
  List.length (calculateWedges tokens oc)
  = (List.length tokens
     + if (0 <? total_probability oc)%float then 1%nat else 0%nat)%nat
  /\ (forall i t,
        nth_error tokens i = Some t ->
        exists w,
          nth_error (calculateWedges tokens oc) i = Some w
          /\ tokenId w = Some (token_id t)
          /\ tokenText w = token_text t
          /\ wprobability w = probability t
          /\ isOther w = false)
  /\ nth_error (calculateWedges tokens oc) (List.length tokens)
     = if 0 <? total_probability oc
       then Some (otherWedge oc (sweep (-90) (map probability tokens)))
       else None.
Proof.
  split; [apply calculateWedges_length|]. split.
  - intros i t. apply calculateWedges_token_wedge.
  - apply calculateWedges_other_slot.
Qed.

Lemma walk_sound (random : float) (entries : list SelectedToken) :
  forall (c : float) (e : SelectedToken),
    walk random c entries = Some e ->
    exists i,
      nth_error entries i = Some e
      /\ (random <=? massFrom c entries i) = true
      /\ forall j, (j < i)%nat -> (random <=? massFrom c entries j) = false.
Proof.
  induction entries as [|x rest IH]; intros c e; simpl; [discriminate|].
  destruct (random <=? c + sel_probability x) eqn:Hx.
  - intros [= <-]. exists 0%nat. repeat split; [exact Hx | lia].
  - intros Hw. destruct (IH _ _ Hw) as (i & Hnth & Hmeet & Hbefore).
    exists (S i). repeat split; [exact Hnth | now rewrite massFrom_cons |].
    intros [|j] Hj; [exact Hx|]. rewrite massFrom_cons. apply Hbefore. lia.
Qed.

Lemma walk_none_inv (random : float) (entries : list SelectedToken) :
  forall c : float,
    walk random c entries = None ->
    forall j, (j < List.length entries)%nat ->
              (random <=? massFrom c entries j) = false.
Proof.
  induction entries as [|x rest IH]; intros c; simpl; [intros _ j Hj; lia|].
  destruct (random <=? c + sel_probability x) eqn:Hx; [discriminate|].
  intros Hw [|j] Hj; [exact Hx|]. rewrite massFrom_cons. apply IH; [exact Hw | lia].
Qed.

(** X2.  Whatever [selectRandomToken] returns is accounted for: either the
    draw is first met at the index of the returned candidate, or no
    cumulative mass meets the draw and the returned candidate is the
    Other entry.  A token is never returned by the fallback. *)
Theorem selectRandomToken_accounted (random : float) (tokens : list TokenData)
  (oc : OtherCategory) (wedges : list Wedge) (e : SelectedToken) :
  selectRandomToken random tokens oc wedges = Some e ->
  (exists i,
     nth_error (allTokens tokens oc wedges) i = Some e
     /\ (random <=? cumulativeMass (allTokens tokens oc wedges) i) = true
     /\ forall j, (j < i)%nat ->
          (random <=? cumulativeMass (allTokens tokens oc wedges) j) = false)
  \/ (e = otherEntry tokens oc wedges
      /\ forall j, (j < List.length (allTokens tokens oc wedges))%nat ->
           (random <=? cumulativeMass (allTokens tokens oc wedges) j) = false).
Proof.
  unfold selectRandomToken.
  destruct (walk random 0 (allTokens tokens oc wedges)) as [e'|] eqn:Hw.
  - intros [= <-]. left.
    destruct (walk_sound _ _ _ _ Hw) as (i & Hnth & Hmeet & Hbefore).
    exists i. repeat split; [exact Hnth | exact Hmeet | exact Hbefore].
  - rewrite allTokens_last. intros [= <-]. right. split; [reflexivity|].
    intros j Hj. rewrite <- massFrom_zero. now apply walk_none_inv.
Qed.

Lemma selectRandomToken_accounted_witness :
  (exists i,
     nth_error (allTokens [tok 1 "a" 0.5; tok 2 "b" 0.25] (other 0.25 50255) []) i
     = Some (otherEntry [tok 1 "a" 0.5; tok 2 "b" 0.25] (other 0.25 50255) [])
     /\ (0.8 <=? cumulativeMass
                   (allTokens [tok 1 "a" 0.5; tok 2 "b" 0.25] (other 0.25 50255) []) i)
        = true
     /\ forall j, (j < i)%nat ->
          (0.8 <=? cumulativeMass
                     (allTokens [tok 1 "a" 0.5; tok 2 "b" 0.25] (other 0.25 50255) []) j)
          = false)
  \/ (otherEntry [tok 1 "a" 0.5; tok 2 "b" 0.25] (other 0.25 50255) []
      = otherEntry [tok 1 "a" 0.5; tok 2 "b" 0.25] (other 0.25 50255) []
      /\ forall j,
           (j < List.length
                  (allTokens [tok 1 "a" 0.5; tok 2 "b" 0.25] (other 0.25 50255) []))%nat ->
           (0.8 <=? cumulativeMass
                      (allTokens [tok 1 "a" 0.5; tok 2 "b" 0.25] (other 0.25 50255) []) j)
           = false).
Proof.
  apply (selectRandomToken_accounted 0.8 [tok 1 "a" 0.5; tok 2 "b" 0.25]
           (other 0.25 50255) []).
  reflexivity.
Defined.

Lemma tokenEntries_in (tokens : list TokenData) (wedges : list Wedge) :
  forall (i0 : nat) (e : SelectedToken),
    In e (tokenEntries tokens wedges i0) ->
    exists k t,
      nth_error tokens k = Some t
      /\ e = {| sel_token_id := Some (token_id t);
                sel_token_text := Some (token_text t);
                sel_probability := probability t;
                sel_isOther := false;
                sel_wedge := nth_error wedges (i0 + k) |}.
Proof.
  induction tokens as [|x rest IH]; intros i0 e; simpl; [tauto|].
  intros [<-|Hin].
  - exists 0%nat, x. split; [reflexivity|]. now rewrite Nat.add_0_r.
  - destruct (IH _ _ Hin) as (k & t & Hnth & ->).
    exists (S k), t. split; [exact Hnth|]. now rewrite Nat.add_succ_r.
Qed.

Lemma selectRandomToken_in (random : float) (tokens : list TokenData)
  (oc : OtherCategory) (wedges : list Wedge) (e : SelectedToken) :
  selectRandomToken random tokens oc wedges = Some e ->
  In e (tokenEntries tokens wedges 0) \/ e = otherEntry tokens oc wedges.
Proof.
  unfold selectRandomToken.
  destruct (walk random 0 (allTokens tokens oc wedges)) as [e'|] eqn:Hw.
  - intros [= <-]. apply walk_in in Hw. unfold allTokens in Hw.
    apply in_app_or in Hw as [Hin|[<-|[]]]; auto.
  - rewrite allTokens_last. intros [= <-]. now right.
Qed.

(** X3.  With the wedges of [calculateWedges] (as [handleSpin] passes them),
    a selected token carries its own wedge: the one with its id, text
    and probability.  The Other entry carries the Other wedge when the
    other mass is positive, and no wedge when it is not. *)
Theorem selectRandomToken_own_wedge (random : float) (tokens : list TokenData)
  (oc : OtherCategory) (e : SelectedToken) :
  selectRandomToken random tokens oc (calculateWedges tokens oc) = Some e ->
  (sel_isOther e = false ->
   exists w,
     sel_wedge e = Some w
     /\ In w (calculateWedges tokens oc)
     /\ tokenId w = sel_token_id e
     /\ Some (tokenText w) = sel_token_text e
     /\ wprobability w = sel_probability e
     /\ isOther w = false)
  /\ (sel_isOther e = true ->
      sel_wedge e
      = if 0 <? total_probability oc
        then Some (otherWedge oc (sweep (-90) (map probability tokens)))
        else None).
Proof.
  intros Hsel.
  pose proof (calculateWedges_token_wedge tokens oc) as Htok.
  pose proof (calculateWedges_other_slot tokens oc) as Hother.
  apply selectRandomToken_in in Hsel as [Hin | ->].
  - apply tokenEntries_in in Hin as (k & t & Hnth & ->). simpl. split.
    + intros _. destruct (Htok k t Hnth) as (w & Hw & Hid & Htext & Hp & Hno).
      exists w. repeat split; try assumption.
      * eapply nth_error_In, Hw.
      * now rewrite Htext.
    + discriminate.
  - simpl. split; [discriminate|]. intros _. exact Hother.
Qed.

Lemma selectRandomToken_own_wedge_witness :
  sel_wedge (otherEntry [tok 1 "a" 0.5; tok 2 "b" 0.25] (other 0 0)
               (calculateWedges [tok 1 "a" 0.5; tok 2 "b" 0.25] (other 0 0)))
  = None.
Proof.
  apply (selectRandomToken_own_wedge 0.875 [tok 1 "a" 0.5; tok 2 "b" 0.25] (other 0 0)
           (otherEntry [tok 1 "a" 0.5; tok 2 "b" 0.25] (other 0 0)
              (calculateWedges [tok 1 "a" 0.5; tok 2 "b" 0.25] (other 0 0))));
    reflexivity.
Defined.

End WedgesAndDraw.

(* ------------------------------------------------------------------ *)
(** ** A spin of the wheel *)

Section Spin.
Import Wheel Spinner Store Client Pages Samples.
Local Open Scope float_scope.

Variable number_toString : float -> js_string.

Lemma refetch_flags (s : SessionStore) (probs : settled ProbData)
  (fallback : js_string) :
  isLoading (fst (refetch number_toString s probs fallback)) = false
  /\ isSpinning (fst (refetch number_toString s probs fallback)) = isSpinning s.
Proof. destruct probs; split; reflexivity. Qed.

Lemma handleTokenSelect_flags (s : SessionStore) (selection : TokenSelection)
  (appended : settled TextData) (probs : settled ProbData) :
  isLoading (fst (handleTokenSelect number_toString s selection appended probs)) = false
  /\ isSpinning (fst (handleTokenSelect number_toString s selection appended probs))
     = isSpinning s.
Proof.
  unfold handleTokenSelect. destruct appended as [data|e]; [|split; reflexivity].
  pose proof (refetch_flags
                (Store.appendToken (set_error (set_isLoading s true) None) data)
                probs (lit "Failed to select token")) as H.
  destruct (refetch number_toString _ probs _) as [s' calls]. exact H.
Qed.

Lemma selectRandomToken_some (random : float) (tokens : list TokenData)
  (oc : OtherCategory) (wedges : list Wedge) :
  exists e, selectRandomToken random tokens oc wedges = Some e.
Proof.
  unfold selectRandomToken.
  destruct (walk random 0 (allTokens tokens oc wedges)) as [e|].
  - now exists e.
  - rewrite allTokens_last. now eexists.
Qed.

(** [handleSpin] in terms of the entry drawn. *)
Lemma handleSpin_drawn (s : SessionStore) (rotation random : float)
  (appended : settled TextData) (probs : settled ProbData) (e : SelectedToken) :
  selectRandomToken random (aboveThresholdTokens s) (otherCategory s)
    (calculateWedges (aboveThresholdTokens s) (otherCategory s)) = Some e ->
  handleSpin number_toString s rotation random appended probs
  = Some {| spin_rotation := match sel_wedge e with
                             | Some wedge => calculateSpinRotation wedge 3
                             | None => rotation
                             end;
            spin_selection := selectionOf e;
            spin_store :=
              fst (handleTokenSelect number_toString
                     (set_isSpinning (set_error (set_isSpinning s true) None) false)
                     (selectionOf e) appended probs);
            spin_effects :=
              snd (handleTokenSelect number_toString
                     (set_isSpinning (set_error (set_isSpinning s true) None) false)
                     (selectionOf e) appended probs);
            final_rotation := 0 |}.
Proof.
  intros Hsel. unfold handleSpin.
  change (aboveThresholdTokens (set_error (set_isSpinning s true) None))
    with (aboveThresholdTokens s).
  change (otherCategory (set_error (set_isSpinning s true) None))
    with (otherCategory s).
  rewrite Hsel.
  destruct (handleTokenSelect number_toString _ _ appended probs) as [s' effects].
  reflexivity.
Qed.

(** X4.  A spin always runs to its end (no property of [undefined] is ever
    read): it leaves the wheel at rotation 0 with the spinning and the
    loading flags down, and it has sent, as its first request, an
    append-token for either the tail or one of the store's
    above-threshold tokens, named by that token's own id and text. *)
Theorem handleSpin_completes (s : SessionStore) (rotation random : float)
  (appended : settled TextData) (probs : settled ProbData) :
  exists r,
    handleSpin number_toString s rotation random appended probs = Some r
    /\ final_rotation r = 0
    /\ isSpinning (spin_store r) = false
    /\ isLoading (spin_store r) = false
    /\ (spin_selection r = otherSelection
        \/ exists t, In t (aboveThresholdTokens s)
                     /\ spin_selection r
                        = {| ts_token_id := Some (token_id t);
                             ts_token_text := Some (token_text t);
                             ts_category := None |})
    /\ hd_error (spin_effects r)
       = Some (Api (PostAppendToken (sid s) (spin_selection r))).
Proof.
  destruct (selectRandomToken_some random (aboveThresholdTokens s) (otherCategory s)
              (calculateWedges (aboveThresholdTokens s) (otherCategory s)))
    as (e & Hsel).
  rewrite (handleSpin_drawn s rotation random appended probs e Hsel).
  eexists; split; [reflexivity|]. simpl.
  pose proof (handleTokenSelect_flags
                (set_isSpinning (set_error (set_isSpinning s true) None) false)
                (selectionOf e) appended probs) as [Hload Hspin].
  repeat split; try assumption.
  - apply selectRandomToken_in in Hsel as [Hin | ->]; [right | now left].
    apply tokenEntries_in in Hin as (k & t & Hnth & ->).
    exists t. split; [eapply nth_error_In, Hnth | reflexivity].
  - exact (handleTokenSelect_first_effect number_toString
             (set_isSpinning (set_error (set_isSpinning s true) None) false)
             (selectionOf e) appended probs).
Qed.

(** X5.  Where the wheel turns to: for a selected token, three full turns
    plus the middle of that token's own wedge; for the tail, the same
    with the Other wedge when the other mass is positive, and no turn at
    all (the rotation stays as it was) when it is not. *)
Theorem handleSpin_rotation (s : SessionStore) (rotation random : float)
  (appended : settled TextData) (probs : settled ProbData) (r : spun) :
  handleSpin number_toString s rotation random appended probs = Some r ->
  (ts_category (spin_selection r) = None ->
   exists w,
     In w (calculateWedges (aboveThresholdTokens s) (otherCategory s))
     /\ isOther w = false
     /\ tokenId w = ts_token_id (spin_selection r)
     /\ Some (tokenText w) = ts_token_text (spin_selection r)
     /\ spin_rotation r = 3 * 360 + (startAngle w + endAngle w) / 2)
  /\ (spin_selection r = otherSelection ->
      spin_rotation r
      = if 0 <? total_probability (otherCategory s)
        then calculateSpinRotation
               (otherWedge (otherCategory s)
                  (sweep (-90) (map probability (aboveThresholdTokens s)))) 3
        else rotation).
Proof.
  destruct (selectRandomToken_some random (aboveThresholdTokens s) (otherCategory s)
              (calculateWedges (aboveThresholdTokens s) (otherCategory s)))
    as (e & Hsel).
  rewrite (handleSpin_drawn s rotation random appended probs e Hsel).
  intros [= <-]. simpl.
  apply selectRandomToken_in in Hsel as [Hin | ->].
  - apply tokenEntries_in in Hin as (k & t & Hnth & ->). simpl. split.
    + intros _.
      destruct (calculateWedges_token_wedge (aboveThresholdTokens s)
                  (otherCategory s) k t Hnth) as (w & Hw & Hid & Htext & _ & Hno).
      exists w. rewrite Hw. repeat split; try assumption.
      * eapply nth_error_In, Hw.
      * now rewrite Htext.
    + discriminate.
  - simpl. split; [discriminate|]. intros _.
    rewrite calculateWedges_other_slot.
    now destruct (0 <? total_probability (otherCategory s)).
Qed.

End Spin.

(** An empty tail and a draw that no token meets: the wheel stays at the
    rotation 12.5 it had. *)
Lemma handleSpin_rotation_witness :
  option_map Pages.spin_rotation
    (Pages.handleSpin (fun _ => [])
       (Samples.emptyTailStore [Samples.tok 1 " sat" 0.5; Samples.tok 2 " is" 0.25])
       12.5%float 0.875%float (Rejected OtherValue) (Rejected OtherValue))
  = Some 12.5%float.
Proof.
  destruct (Pages.handleSpin (fun _ => [])
              (Samples.emptyTailStore
                 [Samples.tok 1 " sat" 0.5; Samples.tok 2 " is" 0.25])
              12.5%float 0.875%float (Rejected OtherValue) (Rejected OtherValue))
    as [r|] eqn:Hr.
  - simpl. f_equal.
    rewrite (proj2 (handleSpin_rotation _ _ _ _ _ _ r Hr)); [reflexivity|].
    vm_compute in Hr. injection Hr as <-. reflexivity.
  - vm_compute in Hr. discriminate.
Defined.

(* ------------------------------------------------------------------ *)
(** ** The handlers and the backend's answers *)

Section Handlers.
Import Store Client Pages Samples.

Variable number_toString : float -> js_string.

Variable null_read_message : js_string.

(** The handlers over the answers as awaited agree with the handlers
    over the answers as the store has read them. *)
Lemma handleTokenSelect_read (s : SessionStore) (selection : TokenSelection)
  (appended : settled (option TextData)) (probs : settled (option ProbData)) :
  Answers.handleTokenSelect number_toString null_read_message s selection appended probs
  = handleTokenSelect number_toString s selection
      (Http.readable null_read_message appended)
      (Http.readable null_read_message probs).
Proof. destruct appended as [[data|]|e], probs as [[probData|]|e']; reflexivity. Qed.

Lemma handleUndo_read (s : SessionStore)
  (undone : settled (option TextData)) (probs : settled (option ProbData)) :
  Answers.handleUndo number_toString null_read_message s undone probs
  = handleUndo number_toString s
      (Http.readable null_read_message undone)
      (Http.readable null_read_message probs).
Proof. destruct undone as [[data|]|e], probs as [[probData|]|e']; reflexivity. Qed.

Lemma handleStart_read (selectedModel prompt : js_string)
  (created : settled (option SessionData)) (prompted : settled unit)
  (probs : settled (option ProbData)) (s : SessionStore) :
  Answers.handleStart number_toString null_read_message selectedModel prompt
    created prompted probs s
  = handleStart number_toString selectedModel prompt
      (Http.readable null_read_message created) prompted
      (Http.readable null_read_message probs) s.
Proof.
  destruct created as [[sd|]|e], prompted as [u|e'], probs as [[pd|]|e''];
    reflexivity.
Qed.

(** X7.  Every handler that awaits the backend lowers the loading flag
    when it is done, whatever the answers were, and it leaves an error
    message in the store exactly when one of the requests it awaited was
    rejected or was answered with [null] where the store reads the
    answer: a new action clears the message of the previous one.  (The
    answer to [setPrompt] is not read: there only a rejection counts.) *)
Theorem handlers_error_iff (s : SessionStore) :
  (forall selection appended probs,
     isLoading (fst (Answers.handleTokenSelect number_toString null_read_message
                       s selection appended probs)) = false
     /\ (error (fst (Answers.handleTokenSelect number_toString null_read_message
                       s selection appended probs)) = None
         <-> usable appended && usable probs = true))
  /\ (forall undone probs,
        isLoading (fst (Answers.handleUndo number_toString null_read_message
                          s undone probs)) = false
        /\ (error (fst (Answers.handleUndo number_toString null_read_message
                          s undone probs)) = None
            <-> usable undone && usable probs = true))
  /\ (forall selectedModel prompt created prompted probs,
        isLoading (fst (Answers.handleStart number_toString null_read_message
                          selectedModel prompt created prompted probs s)) = false
        /\ (error (fst (Answers.handleStart number_toString null_read_message
                          selectedModel prompt created prompted probs s)) = None
            <-> usable created && fulfilled prompted && usable probs = true)).
Proof.
  split; [|split].
  - intros selection [[data|]|e] [[probData|]|e']; simpl;
      (split; [reflexivity | split; [try reflexivity; discriminate | try reflexivity; discriminate]]).
  - intros [[data|]|e] [[probData|]|e']; simpl;
      (split; [reflexivity | split; [try reflexivity; discriminate | try reflexivity; discriminate]]).
  - intros selectedModel prompt [[sd|]|e] [u|e'] [[probData|]|e'']; simpl;
      (split; [reflexivity | split; [try reflexivity; discriminate | try reflexivity; discriminate]]).
Qed.

(** X8.  A selection that fails.  When the append request is rejected, the
    store keeps the text, the history and the distribution it had and
    only one request has been sent.  When the append is accepted but the
    refetch of the probabilities is rejected, the store holds the new
    text and history together with the distribution of the old text. *)
Theorem handleTokenSelect_failures (s : SessionStore) (selection : TokenSelection)
  (e : thrown) :
  (forall probs,
     let r := handleTokenSelect number_toString s selection (Rejected e) probs in
     currentText (fst r) = currentText s
     /\ tokenHistory (fst r) = tokenHistory s
     /\ aboveThresholdTokens (fst r) = aboveThresholdTokens s
     /\ otherCategory (fst r) = otherCategory s
     /\ error (fst r) = Some (message_or e (lit "Failed to select token"))
     /\ snd r = [Api (PostAppendToken (sid s) selection)])
  /\ (forall data,
        let r := handleTokenSelect number_toString s selection
                   (Fulfilled data) (Rejected e) in
        currentText (fst r) = td_current_text data
        /\ tokenHistory (fst r) = td_token_history data
        /\ aboveThresholdTokens (fst r) = aboveThresholdTokens s
        /\ otherCategory (fst r) = otherCategory s
        /\ error (fst r) = Some (message_or e (lit "Failed to select token"))).
Proof.
  split.
  - intros probs r. subst r. repeat split.
  - intros data r. subst r. repeat split.
Qed.

(** X9.  Undo after a selection brings the store back: when the backend
    answers the undo with the text and history the store had before the
    selection, and the refetch with the distribution it had, the store
    is again what it was (for a store that was idle and showed no
    error). *)
Theorem handleUndo_inverts_select (s : SessionStore) (selection : TokenSelection)
  (data : TextData) (probData : ProbData) :
  isLoading s = false ->
  error s = None ->
  fst (handleUndo number_toString
         (fst (handleTokenSelect number_toString s selection
                 (Fulfilled data) (Fulfilled probData)))
         (Fulfilled {| td_current_text := currentText s;
                       td_token_history := tokenHistory s |})
         (Fulfilled {| pd_current_text := currentText s;
                       pd_above_threshold_tokens := aboveThresholdTokens s;
                       pd_other_category := otherCategory s |}))
  = s.
Proof.
  intros Hload Herr. destruct s; simpl in *. subst. reflexivity.
Qed.

End Handlers.

Lemma handleUndo_inverts_select_witness :
  fst (Pages.handleUndo (fun _ => [])
         (fst (Pages.handleTokenSelect (fun _ => [])
                 (Samples.emptyTailStore [Samples.tok 1 " sat" 0.5])
                 {| Client.ts_token_id := Some 1%Z;
                    Client.ts_token_text := Some (lit " sat");
                    Client.ts_category := None |}
                 (Fulfilled {| Store.td_current_text := lit "The cat sat";
                               Store.td_token_history := [] |})
                 (Fulfilled {| Store.pd_current_text := lit "The cat sat";
                               Store.pd_above_threshold_tokens := [];
                               Store.pd_other_category := Store.emptyOther |})))
         (Fulfilled {| Store.td_current_text := lit "The cat";
                       Store.td_token_history := [] |})
         (Fulfilled {| Store.pd_current_text := lit "The cat";
                       Store.pd_above_threshold_tokens := [Samples.tok 1 " sat" 0.5];
                       Store.pd_other_category := Store.emptyOther |}))
  = Samples.emptyTailStore [Samples.tok 1 " sat" 0.5].
Proof.
  apply (handleUndo_inverts_select (fun _ => [])
           (Samples.emptyTailStore [Samples.tok 1 " sat" 0.5])); reflexivity.
Defined.

(* ------------------------------------------------------------------ *)
(** ** Starting a session *)

Section Start.
Import Store Client Pages Samples.

Variable number_toString : float -> js_string.

(** The three requests of [handleStart], for the session id [id]. *)
Definition startRequests (selectedModel prompt id : js_string) : list effect :=
  [ Api (PostSessions selectedModel);
    Api (PostSetPrompt id prompt);
    Api (GetNextTokenProbs id
           [ (lit "threshold", number_toString 0.01%float);
             (lit "temperature", number_toString 1.0%float) ]) ].

(** A start that succeeds: the three requests go out in order (create
    the session, set the prompt on the session just created, fetch the
    probabilities with the default parameters), then the page navigates
    to the wheel; the store holds the new session, the prompt exactly as
    typed, an empty history, and the text and distribution of the
    probabilities answer. *)
Theorem handleStart_success (selectedModel prompt : js_string)
  (sessionData : SessionData) (probData : ProbData) (s : SessionStore) :
  handleStart number_toString selectedModel prompt
    (Fulfilled sessionData) (Fulfilled tt) (Fulfilled probData) s
  = ({| sessionId := Some (sd_session_id sessionData);
        modelName := sd_model_name sessionData;
        initialPrompt := prompt;
        currentText := pd_current_text probData;
        tokenHistory := [];
        aboveThresholdTokens := pd_above_threshold_tokens probData;
        otherCategory := pd_other_category probData;
        isLoading := false;
        error := None;
        isSpinning := isSpinning s |},
     startRequests selectedModel prompt (sd_session_id sessionData)
     ++ [Goto (lit "/wheel")]).
Proof. reflexivity. Qed.

Variable null_read_message : js_string.

(** X10.  The page navigates to the wheel if and only if all three
    requests were fulfilled and neither the session answer nor the
    probabilities answer was [null]; the requests stop at the first one
    that is rejected or whose answer the store cannot read; a session
    that was created stays in the store even when a later request fails,
    and none is stored otherwise; and the prompt is set only once the
    backend has accepted it. *)
Theorem handleStart_navigates_iff (selectedModel prompt : js_string)
  (created : settled (option SessionData)) (prompted : settled unit)
  (probs : settled (option ProbData)) (s : SessionStore) :
  (In (Goto (lit "/wheel"))
      (snd (Answers.handleStart number_toString null_read_message
              selectedModel prompt created prompted probs s))
   <-> usable created && fulfilled prompted && usable probs = true)
  /\ List.length
       (snd (Answers.handleStart number_toString null_read_message
               selectedModel prompt created prompted probs s))
     = (1 + (if usable created then 1 else 0)
          + (if usable created && fulfilled prompted then 1 else 0)
          + (if usable created && fulfilled prompted && usable probs
             then 1 else 0))%nat
  /\ (forall sessionData,
        created = Fulfilled (Some sessionData) ->
        sessionId (fst (Answers.handleStart number_toString null_read_message
                          selectedModel prompt created prompted probs s))
        = Some (sd_session_id sessionData))
  /\ (usable created = false ->
      sessionId (fst (Answers.handleStart number_toString null_read_message
                        selectedModel prompt created prompted probs s))
      = sessionId s)
  /\ (usable created && fulfilled prompted = false ->
      initialPrompt (fst (Answers.handleStart number_toString null_read_message
                            selectedModel prompt created prompted probs s))
      = initialPrompt s
      /\ currentText (fst (Answers.handleStart number_toString null_read_message
                             selectedModel prompt created prompted probs s))
         = currentText s
      /\ tokenHistory (fst (Answers.handleStart number_toString null_read_message
                              selectedModel prompt created prompted probs s))
         = tokenHistory s).
Proof.
  destruct created as [[sd|]|e], prompted as [u|e'], probs as [[pd|]|e'']; simpl;
    repeat split; try reflexivity; try discriminate; try tauto;
    try (intros sd' [= <-]; reflexivity);
    try (intros [H|[H|[H|[H|[]]]]]; discriminate);
    try (intros [H|[H|[H|[]]]]; discriminate);
    try (intros [H|[H|[]]]; discriminate);
    try (intros [H|[]]; discriminate);
    try (intros _; right; right; right; left; reflexivity).
Qed.

End Start.

(** A 200 answer whose body is [null] is a fulfilled request that the
    store cannot read.  After the session and the prompt were accepted,
    a [null] probabilities answer leaves the error of the failed read in
    the store and the page where it is: three requests, no navigation. *)
Example handleStart_null_probabilities :
  Http.settledValue (fun _ => []) [] []
    (fun _ : Json.json => tt)
    {| Http.ok := true; Http.status := 200%Z; Http.json := Fulfilled Json.JNull |}
  = Fulfilled None
  /\ snd (Answers.handleStart (fun _ => []) (lit "Cannot read properties of null")
            (lit "gpt2") (lit "The cat")
            (Fulfilled (Some {| Pages.sd_session_id := lit "abc-123";
                                Pages.sd_model_name := lit "gpt2" |}))
            (Fulfilled tt) (Fulfilled None) Store.initial)
     = startRequests (fun _ => []) (lit "gpt2") (lit "The cat") (lit "abc-123")
  /\ Store.error
       (fst (Answers.handleStart (fun _ => []) (lit "Cannot read properties of null")
               (lit "gpt2") (lit "The cat")
               (Fulfilled (Some {| Pages.sd_session_id := lit "abc-123";
                                   Pages.sd_model_name := lit "gpt2" |}))
               (Fulfilled tt) (Fulfilled None) Store.initial))
     = Some (lit "Cannot read properties of null").
Proof. repeat split. Qed.

(** The session request is answered with [null]: nothing of the store's
    prompt, text or history changes and the page stays. *)
Lemma handleStart_navigates_iff_witness :
  Store.initialPrompt
    (fst (Answers.handleStart (fun _ => []) (lit "Cannot read properties of null")
            (lit "gpt2") (lit "The cat")
            (Fulfilled None) (Fulfilled tt) (Rejected OtherValue) Store.initial))
  = Store.initialPrompt Store.initial.
Proof.
  apply (handleStart_navigates_iff (fun _ => []) (lit "Cannot read properties of null")
           (lit "gpt2") (lit "The cat")
           (Fulfilled None) (Fulfilled tt) (Rejected OtherValue) Store.initial).
  reflexivity.
Defined.

(* ------------------------------------------------------------------ *)
(** ** The prompt input *)

Section PromptValidity.
Import PromptInput.

Lemma trimStart_nil_iff (s : js_string) :
  trimStart s = [] <-> forallb is_white_space s = true.
Proof.
  induction s as [|c rest IH]; simpl; [tauto|].
  destruct (is_white_space c); simpl; [exact IH|].
  split; discriminate.
Qed.

Lemma trimStart_head (s : js_string) (c : code_unit) (rest : js_string) :
  trimStart s = c :: rest -> is_white_space c = false.
Proof.
  induction s as [|x xs IH]; simpl; [discriminate|].
  destruct (is_white_space x) eqn:Hx; [exact IH|].
  now intros [= <- _].
Qed.

Lemma forallb_rev (f : code_unit -> bool) (s : js_string) :
  forallb f (rev s) = forallb f s.
Proof.
  induction s as [|c rest IH]; simpl; [reflexivity|].
  rewrite forallb_app, IH. simpl. rewrite andb_true_r. apply andb_comm.
Qed.

Lemma trim_nil_iff (s : js_string) :
  trim s = [] <-> forallb is_white_space s = true.
Proof.
  unfold trim, trimEnd. split.
  - intros H. apply (f_equal (@rev code_unit)) in H.
    rewrite rev_involutive in H. simpl in H.
    apply trimStart_nil_iff in H. rewrite forallb_rev in H.
    destruct (trimStart s) as [|c rest] eqn:Hs.
    + now apply trimStart_nil_iff.
    + apply trimStart_head in Hs. simpl in H. rewrite Hs in H. discriminate.
  - intros H. apply trimStart_nil_iff in H. now rewrite H.
Qed.

(** X11.  A prompt is valid, and is submitted, exactly when it has a code unit
    that is not white space; it is then handed to the callback once.
    The Start button is enabled for exactly these prompts. *)
Theorem isValid_iff_visible (prompt : js_string) :
  (isValid prompt = true
   <-> exists c, In c prompt /\ is_white_space c = false)
  /\ handleSubmit prompt S 0%nat = (if isValid prompt then 1%nat else 0%nat)
  /\ startDisabled prompt = negb (isValid prompt).
Proof.
  split; [|split; reflexivity].
  unfold isValid, str_length. rewrite Nat.ltb_lt.
  assert (Hlen : (0 < List.length (trim prompt))%nat <-> trim prompt <> []).
  { destruct (trim prompt); simpl; split; (lia || congruence || discriminate). }
  rewrite Hlen, trim_nil_iff. split.
  - intros Hnot. destruct (forallb is_white_space prompt) eqn:Hall; [congruence|].
    assert (Hex : existsb (fun c => negb (is_white_space c)) prompt = true).
    { clear -Hall. induction prompt as [|c rest IH]; simpl in *; [discriminate|].
      destruct (is_white_space c); simpl in *; auto. }
    apply existsb_exists in Hex as (c & Hin & Hc).
    exists c. split; [exact Hin|]. now destruct (is_white_space c).
  - intros (c & Hin & Hc) Hall.
    rewrite forallb_forall in Hall. specialize (Hall c Hin). congruence.
Qed.

(** X12.  A key press submits only as Enter with Ctrl or Cmd held, and then
    under the same test as the Start button: for any other key, or Enter
    alone, or a blank prompt, the callback is not run. *)
Theorem handleKeyDown_submits_iff (prompt : js_string) (event : KeyboardEvent) :
  handleKeyDown prompt S event 0%nat
  = (if Json.string_eqb (key event) (lit "Enter")
        && (ctrlKey event || metaKey event) && isValid prompt
     then 1%nat else 0%nat)
  /\ (key event <> lit "Enter" ->
      forall (W : Type) (onSubmit : W -> W) (w : W),
        handleKeyDown prompt onSubmit event w = w)
  /\ (ctrlKey event = false -> metaKey event = false ->
      forall (W : Type) (onSubmit : W -> W) (w : W),
        handleKeyDown prompt onSubmit event w = w).
Proof.
  unfold handleKeyDown, handleSubmit, isValid, Json.string_eqb.
  destruct (list_eq_dec N.eq_dec (key event) (lit "Enter")) as [Heq|Hne];
    destruct (ctrlKey event), (metaKey event); simpl;
    repeat split; try reflexivity; try congruence;
    try (destruct (0 <? str_length (trim prompt))%nat; reflexivity).
Qed.

End PromptValidity.

(** Enter alone, on a prompt with text in it, does not submit. *)
Lemma handleKeyDown_submits_iff_witness :
  PromptInput.handleKeyDown (lit "The cat") S
    {| PromptInput.key := lit "Enter"; PromptInput.ctrlKey := false;
       PromptInput.metaKey := false |} 0%nat
  = 0%nat.
Proof.
  apply (handleKeyDown_submits_iff (lit "The cat")
           {| PromptInput.key := lit "Enter"; PromptInput.ctrlKey := false;
              PromptInput.metaKey := false |}); reflexivity.
Defined.

(* ------------------------------------------------------------------ *)
(** ** Colors and the Other panel *)

Section TokenColors.
Import Wheel Colors Samples.

Variable number_toString : float -> js_string.
Variable number_rem : float -> float -> float.

Lemma colorLoop_absent (hueStep : float) (tokens : list TokenData) (id : Z) :
  forall (index : nat) (colorMap : colorRecord),
    (forall t, In t tokens -> token_id t <> id) ->
    lookup id (colorLoop number_toString number_rem hueStep tokens index colorMap)
    = lookup id colorMap.
Proof.
  induction tokens as [|x rest IH]; intros index colorMap Hnot; [reflexivity|].
  simpl. rewrite IH; [|intros t Ht; apply Hnot; now right].
  simpl. destruct (Z.eqb_spec (token_id x) id) as [Heq|_]; [|reflexivity].
  exfalso. apply (Hnot x); [now left | exact Heq].
Qed.

Lemma colorLoop_last (hueStep : float) (tokens : list TokenData) :
  forall (index k : nat) (colorMap : colorRecord) (t : TokenData),
    nth_error tokens k = Some t ->
    (forall j t', (k < j)%nat -> nth_error tokens j = Some t' ->
                  token_id t' <> token_id t) ->
    lookup (token_id t)
      (colorLoop number_toString number_rem hueStep tokens index colorMap)
    = Some (colorAt number_toString number_rem hueStep (index + k)).
Proof.
  induction tokens as [|x rest IH]; intros index k colorMap t Hnth Hlast.
  - destruct k; discriminate.
  - destruct k as [|k]; simpl in *.
    + injection Hnth as <-. rewrite colorLoop_absent.
      * simpl. rewrite Z.eqb_refl. now rewrite Nat.add_0_r.
      * intros t' Hin. apply In_nth_error in Hin as (j & Hj).
        apply (Hlast (S j) t'); [lia | exact Hj].
    + rewrite (IH (S index) k _ t Hnth).
      * now rewrite Nat.add_succ_r.
      * intros j t' Hj Ht'. apply (Hlast (S j) t'); [lia | exact Ht'].
Qed.

Lemma colorLoop_present (hueStep : float) (tokens : list TokenData) (id : Z) :
  forall (index : nat) (colorMap : colorRecord),
    (exists t, In t tokens /\ token_id t = id) ->
    exists c,
      lookup id (colorLoop number_toString number_rem hueStep tokens index colorMap)
      = Some c.
Proof.
  induction tokens as [|x rest IH]; intros index colorMap (t & Hin & Hid).
  - destruct Hin.
  - simpl.
    destruct (in_dec Z.eq_dec id (map token_id rest)) as [Hlater|Hnot].
    + apply IH. apply in_map_iff in Hlater as (t' & Ht' & Hin').
      now exists t'.
    + rewrite colorLoop_absent.
      * destruct Hin as [<-|Hin].
        -- simpl. rewrite Hid, Z.eqb_refl. now eexists.
        -- exfalso. apply Hnot. apply in_map_iff. now exists t.
      * intros t' Hin' Heq. apply Hnot. apply in_map_iff. now exists t'.
Qed.

(** X13.  The color map has an entry for exactly the ids of the tokens given:
    every token on the wheel and in the legend has a color, and for no
    tokens the map is empty. *)
Theorem generateTokenColors_keys (tokens : list TokenData) (id : Z) :
  (exists c, lookup id (generateTokenColors number_toString number_rem tokens) = Some c)
  <-> (exists t, In t tokens /\ token_id t = id).
Proof.
  unfold generateTokenColors. destruct tokens as [|x rest].
  - simpl. split; [intros (c & H); discriminate | intros (t & [] & _)].
  - change (List.length (x :: rest) =? 0)%nat with false. cbv iota.
    split.
    + intros (c & Hc).
      destruct (in_dec Z.eq_dec id (map token_id (x :: rest))) as [Hin|Hnot].
      * apply in_map_iff in Hin as (t & Ht & Hin). now exists t.
      * rewrite colorLoop_absent in Hc; [discriminate|].
        intros t Hin Heq. apply Hnot. apply in_map_iff. now exists t.
    + apply colorLoop_present.
Qed.

(** X14.  The color of a token is that of the last position at which its id
    occurs: the hue is that position times 360 / n, reduced modulo 360,
    with saturation 70% and lightness 55%.  With distinct ids this is
    the token's own position. *)
Theorem generateTokenColors_hue (tokens : list TokenData) (k : nat) (t : TokenData) :
  nth_error tokens k = Some t ->
  (forall j t', (k < j)%nat -> nth_error tokens j = Some t' ->
                token_id t' <> token_id t) ->
  lookup (token_id t) (generateTokenColors number_toString number_rem tokens)
  = Some (hsl number_toString
            (number_rem
               (number_of_nat k * (360 / number_of_nat (List.length tokens)))%float
               360%float)
            70%float 55%float).
Proof.
  intros Hnth Hlast. unfold generateTokenColors.
  destruct tokens as [|x rest]; [destruct k; discriminate|].
  change (List.length (x :: rest) =? 0)%nat with false. cbv iota.
  now rewrite (colorLoop_last _ (x :: rest) 0 k [] t Hnth Hlast).
Qed.

Lemma tokenWedges_in (tokens : list TokenData) :
  forall (a : float) (w : Wedge),
    In w (fst (tokenWedges tokens a)) ->
    exists t, In t tokens /\ tokenId w = Some (token_id t).
Proof.
  induction tokens as [|x rest IH]; intros a w; simpl; [tauto|].
  specialize (IH (a + probability x * 360)%float).
  destruct (tokenWedges rest (a + probability x * 360)%float) as [ws final].
  simpl in *. intros [<-|Hin].
  - exists x. split; [now left | reflexivity].
  - destruct (IH w Hin) as (t & Ht & Hid). exists t. split; [now right | exact Hid].
Qed.

(** X15.  Every wedge of the wheel other than the Other wedge finds its color
    in the color map of the same tokens: the lookup the wheel makes with
    the wedge's token id is never [undefined]. *)
Theorem wedge_color_defined (tokens : list TokenData) (oc : OtherCategory)
  (w : Wedge) :
  In w (calculateWedges tokens oc) ->
  isOther w = false ->
  exists id c,
    tokenId w = Some id
    /\ lookup id (generateTokenColors number_toString number_rem tokens) = Some c.
Proof.
  intros Hin Hno.
  assert (Htok : In w (fst (tokenWedges tokens (-90)%float))).
  { destruct (0 <? total_probability oc)%float eqn:Hpos.
    - rewrite (calculateWedges_positive tokens oc Hpos) in Hin.
      apply in_app_or in Hin as [Hin|[<-|[]]]; [exact Hin | discriminate].
    - now rewrite (calculateWedges_not_positive tokens oc Hpos) in Hin. }
  apply tokenWedges_in in Htok as (t & Ht & Hid).
  destruct (colorLoop_present (360 / number_of_nat (List.length tokens))%float
              tokens (token_id t) 0 [] (ex_intro _ t (conj Ht eq_refl)))
    as (c & Hc).
  exists (token_id t), c. split; [exact Hid|].
  unfold generateTokenColors. destruct tokens as [|x rest]; [destruct Ht|].
  exact Hc.
Qed.

(** X16.  The Other panel lists the tail exactly when the wheel has an Other
    wedge and the tail's token count is positive. *)
Theorem hasOtherCategory_iff (tokens : list TokenData) (oc : OtherCategory) :
  OtherCategoryList.hasOtherCategory (total_probability oc) (token_count oc) = true
  <-> (exists w, In w (calculateWedges tokens oc) /\ isOther w = true)
      /\ (0 < token_count oc)%Z.
Proof.
  unfold OtherCategoryList.hasOtherCategory.
  rewrite andb_true_iff, Z.ltb_lt. split.
  - intros [Hpos Hcount]. split; [|exact Hcount].
    rewrite (calculateWedges_positive tokens oc Hpos).
    eexists; split; [apply in_or_app; right; left; reflexivity | reflexivity].
  - intros [(w & Hin & Hother) Hcount]. split; [|exact Hcount].
    destruct (0 <? total_probability oc)%float eqn:Hpos; [reflexivity|].
    rewrite (calculateWedges_not_positive tokens oc Hpos) in Hin.
    apply tokenWedges_not_other in Hin. congruence.
Qed.

End TokenColors.

(** Two tokens with the same id: both take the color of the second. *)
Lemma generateTokenColors_hue_witness :
  Colors.lookup 7%Z
    (Colors.generateTokenColors (fun _ => []) (fun x _ => x)
       [Samples.tok 7 "a" 0.5; Samples.tok 7 "b" 0.25])
  = Some (Colors.hsl (fun _ => []) 180%float 70%float 55%float).
Proof.
  apply (generateTokenColors_hue (fun _ => []) (fun x _ => x)
           [Samples.tok 7 "a" 0.5; Samples.tok 7 "b" 0.25] 1 (Samples.tok 7 "b" 0.25)).
  - reflexivity.
  - intros [|[|j]] t' Hj Ht'; try lia. destruct j; discriminate.
Defined.

Lemma wedge_color_defined_witness :
  exists id c,
    Wheel.tokenId
      {| Wheel.tokenId := Some 1%Z; Wheel.tokenText := lit "a";
         Wheel.wprobability := 0.5%float; Wheel.startAngle := (-90)%float;
         Wheel.endAngle := 90%float; Wheel.isOther := false |} = Some id
    /\ Colors.lookup id
         (Colors.generateTokenColors (fun _ => []) (fun x _ => x)
            [Samples.tok 1 "a" 0.5; Samples.tok 2 "b" 0.25]) = Some c.
Proof.
  apply (wedge_color_defined (fun _ => []) (fun x _ => x)
           [Samples.tok 1 "a" 0.5; Samples.tok 2 "b" 0.25] (Samples.other 0.25 50255)).
  - left. reflexivity.
  - reflexivity.
Defined.

(* ------------------------------------------------------------------ *)
(** ** Clicking a wedge *)

Section Click.
Import Wheel Client TokenWheel Samples.

Lemma tokenWedges_source (tokens : list TokenData) :
  forall (a : float) (w : Wedge),
    In w (fst (tokenWedges tokens a)) ->
    exists t, In t tokens
              /\ tokenId w = Some (token_id t)
              /\ tokenText w = token_text t.
Proof.
  induction tokens as [|x rest IH]; intros a w; simpl; [tauto|].
  specialize (IH (a + probability x * 360)%float).
  destruct (tokenWedges rest (a + probability x * 360)%float) as [ws final].
  simpl in *. intros [<-|Hin].
  - exists x. repeat split. now left.
  - destruct (IH w Hin) as (t & Ht & Hid & Htext).
    exists t. repeat split; auto.
Qed.

(** X6.  A click on one of the wheel's wedges is ignored while the wheel is
    spinning.  Otherwise it selects the token the wedge was drawn for,
    by that token's id and text, or asks for tail sampling; the latter
    only on the Other wedge, which exists only when the other mass is
    positive. *)
Theorem handleWedgeClick_selection (tokens : list TokenData)
  (oc : OtherCategory) (w : Wedge) :
  In w (calculateWedges tokens oc) ->
  handleWedgeClick true w = None
  /\ (isOther w = false ->
      exists t, In t tokens
                /\ handleWedgeClick false w
                   = Some {| ts_token_id := Some (token_id t);
                             ts_token_text := Some (token_text t);
                             ts_category := None |})
  /\ (isOther w = true ->
      handleWedgeClick false w = Some otherSelection
      /\ (0 <? total_probability oc)%float = true).
Proof.
  intros Hin. split; [reflexivity|].
  unfold handleWedgeClick.
  destruct (0 <? total_probability oc)%float eqn:Hpos.
  - rewrite (calculateWedges_positive tokens oc Hpos) in Hin.
    apply in_app_or in Hin as [Hin|[<-|[]]].
    + pose proof (tokenWedges_not_other _ _ _ Hin) as Hno.
      apply tokenWedges_source in Hin as (t & Ht & Hid & Htext).
      rewrite Hno, Hid, Htext. split; [|discriminate].
      intros _. now exists t.
    + simpl. split; [discriminate | now split].
  - rewrite (calculateWedges_not_positive tokens oc Hpos) in Hin.
    pose proof (tokenWedges_not_other _ _ _ Hin) as Hno.
    apply tokenWedges_source in Hin as (t & Ht & Hid & Htext).
    rewrite Hno, Hid, Htext. split; [|discriminate].
    intros _. now exists t.
Qed.

End Click.

Lemma handleWedgeClick_selection_witness :
  TokenWheel.handleWedgeClick true (Wheel.otherWedge (Samples.other 1 50257) (-90)%float)
  = None.
Proof.
  apply (handleWedgeClick_selection [] (Samples.other 1 50257)
           (Wheel.otherWedge (Samples.other 1 50257) (-90)%float)).
  left. reflexivity.
Defined.

(* ------------------------------------------------------------------ *)
(** ** Responses *)

Section Responses.
Import Json Http Store Client Pages.

Variable number_toString : float -> js_string.
Variable null_read_message : js_string.
Variable conversion_message : js_string.

(** X17.  A response that is not ok is never returned as data: the handler
    throws, an [APIError] it throws carries the status of the response,
    and a body that is the JSON value [null] makes it throw the
    TypeError of reading [null.message] instead. *)
Theorem handleResponse_not_ok (response : Response) :
  ok response = false ->
  (exists f, handleResponse number_toString null_read_message conversion_message response = Threw f)
  /\ (forall message statusCode,
        handleResponse number_toString null_read_message conversion_message response = Threw (APIError message statusCode) ->
        statusCode = status response)
  /\ (json response = Fulfilled JNull ->
      handleResponse number_toString null_read_message conversion_message response = Threw (Other (ErrorObject null_read_message))).
Proof.
  intros Hok. unfold handleResponse. rewrite Hok. simpl. split; [|split].
  - destruct (field _ (lit "message")) as [message|];
      [destruct (field _ (lit "detail")) as [detail|] |]; try (now eexists).
    destruct (to_string number_toString (errorMessage message detail));
      now eexists.
  - intros m statusCode.
    destruct (field _ (lit "message")) as [message|];
      [destruct (field _ (lit "detail")) as [detail|] |]; try discriminate.
    destruct (to_string number_toString (errorMessage message detail));
      [|discriminate].
    now intros [= _ <-].
  - intros ->. reflexivity.
Qed.

(** X18.  The message of the [APIError] for a response that is not ok whose
    body is a JSON object: a non-empty string [message] wins; failing a
    truthy [message], a non-empty string [detail] is taken; with neither
    truthy the message is "Request failed"; and a body that is not JSON
    gives "Unknown error". *)
Theorem handleResponse_message (response : Response) :
  ok response = false ->
  (forall members m,
     json response = Fulfilled (JObject members) ->
     member (lit "message") members = Some (JString m) -> m <> [] ->
     handleResponse number_toString null_read_message conversion_message response = Threw (APIError m (status response)))
  /\ (forall members d,
        json response = Fulfilled (JObject members) ->
        truthy (member (lit "message") members) = false ->
        member (lit "detail") members = Some (JString d) -> d <> [] ->
        handleResponse number_toString null_read_message conversion_message response = Threw (APIError d (status response)))
  /\ (forall members,
        json response = Fulfilled (JObject members) ->
        truthy (member (lit "message") members) = false ->
        truthy (member (lit "detail") members) = false ->
        handleResponse number_toString null_read_message conversion_message response
        = Threw (APIError (lit "Request failed") (status response)))
  /\ (forall reason,
        json response = Rejected reason ->
        handleResponse number_toString null_read_message conversion_message response
        = Threw (APIError (lit "Unknown error") (status response))).
Proof.
  intros Hok. unfold handleResponse. rewrite Hok. simpl.
  split; [|split; [|split]].
  - intros members m -> Hm Hne. simpl. rewrite Hm.
    unfold errorMessage, or_else. simpl.
    destruct m as [|c rest]; [congruence | reflexivity].
  - intros members d -> Hm Hd Hne. simpl. rewrite Hd.
    unfold errorMessage, or_else. rewrite Hm. simpl.
    destruct d as [|c rest]; [congruence | reflexivity].
  - intros members -> Hm Hd. simpl.
    unfold errorMessage, or_else. rewrite Hm, Hd. reflexivity.
  - intros reason ->. reflexivity.
Qed.

(** X19.  An undo the backend refuses with a message: the store shows that
    message, keeps its text, history and prompt, and only the undo
    request has been sent. *)
Theorem handleUndo_refused (s : SessionStore) (response : Response)
  (members : list (js_string * Json.json)) (m : js_string)
  (view : Json.json -> TextData) (probs : settled ProbData) :
  ok response = false ->
  json response = Fulfilled (JObject members) ->
  member (lit "message") members = Some (JString m) ->
  m <> [] ->
  handleUndo number_toString s
    (awaited number_toString null_read_message conversion_message view response)
    probs
  = ({| sessionId := sessionId s;
        modelName := modelName s;
        initialPrompt := initialPrompt s;
        currentText := currentText s;
        tokenHistory := tokenHistory s;
        aboveThresholdTokens := aboveThresholdTokens s;
        otherCategory := otherCategory s;
        isLoading := false;
        error := Some m;
        isSpinning := isSpinning s |},
     [Api (PostUndo (sid s))]).
Proof.
  intros Hok Hjson Hm Hne. unfold awaited, settledValue, handleResponse.
  rewrite Hok, Hjson. simpl. rewrite Hm.
  unfold errorMessage, or_else. simpl.
  destruct m as [|c rest]; [congruence | reflexivity].
Qed.

(** X20.  The wheel page's guards read [hasSession] and [canUndo] without
    calling them: the page never redirects, also when the store has no
    session, and on an idle store the undo control is enabled and an
    undo is sent to the backend, also when the history is empty. *)
Theorem guards_ignore_derived_values (s : SessionStore) :
  sessionGuard s = []
  /\ (hasSession s tt = false <-> sessionId s = None)
  /\ (isLoading s = false -> isSpinning s = false ->
      undoDisabled s = false
      /\ forall undone probs,
           hd_error (snd (handleUndo number_toString s undone probs))
           = Some (Api (PostUndo (sid s)))).
Proof.
  split; [reflexivity|]. split.
  - unfold hasSession. destruct (sessionId s); split; congruence.
  - intros Hload Hspin. split.
    + rewrite undoDisabled_ignores_history, Hload, Hspin. reflexivity.
    + intros [data|e] probs; simpl; [|reflexivity].
      destruct (refetch number_toString _ probs _) as [s' calls]. reflexivity.
Qed.

End Responses.

Lemma handleResponse_not_ok_witness :
  Http.handleResponse (fun _ => []) (lit "Cannot read properties of null") []
    {| Http.ok := false; Http.status := 500%Z; Http.json := Fulfilled Json.JNull |}
  = Http.Threw (Http.Other (ErrorObject (lit "Cannot read properties of null"))).
Proof.
  apply (handleResponse_not_ok (fun _ => []) (lit "Cannot read properties of null") []
           {| Http.ok := false; Http.status := 500%Z; Http.json := Fulfilled Json.JNull |});
    reflexivity.
Defined.

Lemma handleResponse_message_witness :
  Http.handleResponse (fun _ => []) [] []
    {| Http.ok := false; Http.status := 400%Z;
       Http.json := Fulfilled
                 (Json.JObject [ (lit "error", Json.JString (lit "Cannot undo"));
                            (lit "message", Json.JString (lit "No generated tokens to remove."));
                            (lit "detail", Json.JString (lit "ignored")) ]) |}
  = Http.Threw (Http.APIError (lit "No generated tokens to remove.") 400%Z).
Proof.
  apply (proj1 (handleResponse_message (fun _ => []) [] []
                  {| Http.ok := false; Http.status := 400%Z;
                     Http.json := Fulfilled
                               (Json.JObject [ (lit "error", Json.JString (lit "Cannot undo"));
                                          (lit "message",
                                           Json.JString (lit "No generated tokens to remove."));
                                          (lit "detail", Json.JString (lit "ignored")) ]) |}
                  eq_refl)
          [ (lit "error", Json.JString (lit "Cannot undo"));
            (lit "message", Json.JString (lit "No generated tokens to remove."));
            (lit "detail", Json.JString (lit "ignored")) ]
          (lit "No generated tokens to remove.")).
  - reflexivity.
  - reflexivity.
  - discriminate.
Defined.

Lemma handleUndo_refused_witness :
  fst (Pages.handleUndo (fun _ => [])
         (Samples.emptyTailStore [])
         (Http.awaited (fun _ => []) [] []
            (fun _ => {| Store.td_current_text := []; Store.td_token_history := [] |})
            {| Http.ok := false; Http.status := 400%Z;
               Http.json :=
                 Fulfilled
                   (Json.JObject
                      [ (lit "message",
                         Json.JString (lit "No generated tokens to remove.")) ]) |})
         (Rejected OtherValue))
  = Store.set_error (Samples.emptyTailStore [])
      (Some (lit "No generated tokens to remove.")).
Proof.
  rewrite (handleUndo_refused (fun _ => []) [] [] (Samples.emptyTailStore [])
             {| Http.ok := false; Http.status := 400%Z;
                Http.json :=
                  Fulfilled
                    (Json.JObject
                       [ (lit "message",
                          Json.JString (lit "No generated tokens to remove.")) ]) |}
             [ (lit "message", Json.JString (lit "No generated tokens to remove.")) ]
             (lit "No generated tokens to remove.")
             (fun _ => {| Store.td_current_text := []; Store.td_token_history := [] |})
             (Rejected OtherValue) eq_refl eq_refl eq_refl);
    [reflexivity | discriminate].
Defined.

Lemma guards_ignore_derived_values_witness :
  Pages.undoDisabled Store.initial = false.
Proof.
  apply (guards_ignore_derived_values (fun _ => []) Store.initial); reflexivity.
Defined.
